(** * libstackvm.py: the Python binding of the stack virtual machine

    A shallow embedding of [bindings/python/libstackvm.py].  The binding is
    a thin layer of classes whose methods marshal their arguments through
    [ctypes] and call the exported functions of the native library.  A
    method is embedded as a program over foreign calls ([prog]); running a
    program against a model of the native library ([exec]) gives its
    outcome, and [calls] gives the foreign functions it invoked.

    Platform: a 64-bit little-endian target ([c_size_t] and pointers are
    eight bytes wide), as the library name [libstackvm.dll] suggests. *)

From Stdlib Require Import ZArith Lia.
From Stdlib.Strings Require Import Byte.
From stdpp Require Import base numbers option list strings gmap pretty.

Local Open Scope string_scope.
Local Open Scope Z_scope.

(** ** The C types named in the declarations *)

Inductive ctype : Type :=
| c_void_p | c_char_p | c_bool | c_int
| c_uint8 | c_uint32 | c_int32 | c_size_t | c_double
| c_struct (name : string)
| POINTER (target : ctype).

(** [ctypes] does no overflow checking on integers: a Python [int] handed
    to an integer parameter is reduced to the width of the C type. *)
Definition unsigned (bits z : Z) : Z := z mod 2 ^ bits.
Definition signed (bits z : Z) : Z :=
  (z + 2 ^ (bits - 1)) mod 2 ^ bits - 2 ^ (bits - 1).

Definition wrap (t : ctype) (z : Z) : Z :=
  match t with
  | c_uint8 => unsigned 8 z
  | c_uint32 => unsigned 32 z
  | c_int32 | c_int => signed 32 z
  | c_size_t | c_void_p => unsigned 64 z
  | _ => z
  end.

(** A C [double], identified by its IEEE-754 binary64 bit pattern.  Python
    floats are C doubles, so a float crosses the boundary unchanged. *)
Record double : Type := Double { bits : Z }.

(** ** Python values handed to the binding by its callers *)

Inductive pyval : Type :=
| PyNone
| PyInt (z : Z)
| PyFloat (d : double)
| PyStr (s : string).

Inductive exn : Type :=
| Exception (arg : pyval)
| ArgumentError
| TypeError
| ValueError
| UnicodeDecodeError
| OverflowError
| MemoryError
| AttributeError.

(** What the interpreter supplies and the binding relies on: the UTF-8
    codec behind [str.encode] and [bytes.decode], the conversion of an
    [int] to a [float] ([None] where Python raises [OverflowError]), and
    whether it has the memory for an array of so many bytes. *)
Class PythonRuntime : Type := {
  str_encode : string → list byte;
  bytes_decode : list byte → option string;
  float_of_int : Z → option double;
  can_allocate : Z → bool;
}.

(** ** Structures *)

Record TextPosition : Type := {
  line : Z;      (* c_uint32 *)
  column : Z;    (* c_uint32 *)
  offset : Z;    (* c_uint32 *)
}.

Record InstructionSpan : Type := {
  instruction : Z;   (* c_size_t *)
  start : TextPosition;
  end_ : TextPosition;
}.

(** The nodes of the tree live in native memory; the [root] pointer is
    modelled by the tree it points to. *)
Inductive color : Type := Red | Black.

Inductive rbnode : Type :=
| Leaf
| Node (c : color) (l : rbnode) (span : InstructionSpan) (r : rbnode).

Record RedBlackTree_InstructionSpan : Type := {
  allocator : Z;   (* c_void_p *)
  len : Z;         (* c_uint32 *)
  root : rbnode;   (* c_void_p *)
}.

Record SourceMap : Type := {
  instructions_positions : RedBlackTree_InstructionSpan;
  current_position : TextPosition;
  current_instruction : Z;   (* c_size_t *)
}.

Record Parser : Type := {
  parser : Z;       (* c_void_p *)
  source : Z;       (* POINTER(c_ubyte) *)
  source_len : Z;   (* c_size_t *)
}.

Inductive ValueType : Type :=
| NONE | INTEGER | FLOAT
| ADDRESS_HEAP | ADDRESS_STRING | ADDRESS_CODE | ADDRESS_STACK.

(** [ValueType] is an [IntEnum]: its members are, and compare as, ints. *)
Definition ValueType_int (t : ValueType) : Z :=
  match t with
  | NONE => 0
  | INTEGER => 1
  | FLOAT => 2
  | ADDRESS_HEAP => 3
  | ADDRESS_STRING => 4
  | ADDRESS_CODE => 5
  | ADDRESS_STACK => 6
  end.

Coercion ValueType_int : ValueType >-> Z.

(** The union's three fields share eight bytes of storage, kept here as
    the unsigned number they spell. *)
Record ValueUnion : Type := { storage : Z }.

Definition integer (u : ValueUnion) : Z := signed 32 (storage u).
Definition float (u : ValueUnion) : double := Double (unsigned 64 (storage u)).
Definition size (u : ValueUnion) : Z := unsigned 64 (storage u).

Record Value : Type := {
  kind : Z;   (* c_uint8 *)
  _value : ValueUnion;
}.

Record Reader : Type := { Reader_ptr : Z }.
Record VirtualMachine : Type := { ptr : Z }.
Record Registers : Type := { Registers_vm : VirtualMachine }.
Record Stack : Type := { vm : VirtualMachine }.

(** ** Foreign functions

    One constructor per exported function the binding calls, carrying the
    arguments of the call after marshalling and indexed by what comes
    back: the converted result and, where the call has an out-parameter,
    what the callee left in it. *)

Inductive foreign : Type → Type :=
| stackvm_allocator_init : foreign Z
| stackvm_allocator_deinit (a : Z) : foreign unit
| stackvm_textposition_init (l c o : Z) : foreign TextPosition
| stackvm_instructionspan_init (i : Z) (s e : TextPosition) : foreign InstructionSpan
| stackvm_sourcemap_init (a : Z) : foreign SourceMap
| stackvm_sourcemap_deinit (self : SourceMap) : foreign unit
| stackvm_sourcemap_find (self : SourceMap) (pos : Z) (result : InstructionSpan)
    : foreign (Z * InstructionSpan)
| stackvm_sourcemap_move (self : SourceMap) : foreign SourceMap
| stackvm_parser_init (a : Z) (buffer : list byte) (n : Z) : foreign Parser
| stackvm_parser_deinit (self : Parser) : foreign unit
| stackvm_parser_get_position (self : Parser) : foreign TextPosition
| stackvm_parser_get_source_map (self : Parser) : foreign SourceMap
| stackvm_parser_get_err_message (self : Parser) (err_len : Z)
    : foreign (option (list byte) * Z)
| stackvm_parser_get_current_line (self : Parser) (err_len : Z)
    : foreign (option (list byte) * Z)
| stackvm_parser_get_source_span (self : Parser) (s e : TextPosition) (err_len : Z)
    : foreign (option (list byte) * Z)
| stackvm_parser_parse (self : Parser) : foreign Z
| stackvm_reader_get_len (r : Z) : foreign Z
| stackvm_reader_deinit (r : Z) : foreign unit
| stackvm_reader_destroy (a r : Z) : foreign unit
| stackvm_init (a r : Z) : foreign Z
| stackvm_deinit (m : Z) : foreign unit
| stackvm_execute (m : Z) : foreign bool
| stackvm_get_last_instruction (m : Z) : foreign Z
| stackvm_get_err_message (m : Z) (err_len : Z) : foreign (option (list byte) * Z)
| stackvm_registers_get_frame_pointer (m : Z) : foreign Z
| stackvm_registers_set_frame_pointer (m x : Z) : foreign unit
| stackvm_registers_get_global_pointer (m : Z) : foreign Z
| stackvm_registers_set_global_pointer (m x : Z) : foreign unit
| stackvm_registers_get_code_pointer (m : Z) : foreign Z
| stackvm_registers_set_code_pointer (m x : Z) : foreign unit
| stackvm_registers_get_stack_pointer (m : Z) : foreign Z
| stackvm_registers_set_stack_pointer (m x : Z) : foreign unit
| stackvm_value_int (x : Z) : foreign Value
| stackvm_value_float (x : double) : foreign Value
| stackvm_value_size (k x : Z) : foreign Value
| stackvm_stack_get_len (m : Z) : foreign Z
| stackvm_stack_load (m i : Z) : foreign Value
| stackvm_stack_store (m i : Z) (v : Value) : foreign unit
| stackvm_stack_store_int (m i x : Z) : foreign unit
| stackvm_stack_store_float (m i : Z) (x : double) : foreign unit
| stackvm_stack_store_address (m i k x : Z) : foreign unit
| stackvm_stack_push_int (m x : Z) : foreign unit
| stackvm_stack_push_float (m : Z) (x : double) : foreign unit
| stackvm_stack_push_address (m k x : Z) : foreign unit
| stackvm_stack_pop (m : Z) : foreign Value.

(** The exported name a call goes to and the number of arguments the call
    site passes. *)
Definition symbol {R} (f : foreign R) : string :=
  match f with
  | stackvm_allocator_init => "stackvm_allocator_init"
  | stackvm_allocator_deinit _ => "stackvm_allocator_deinit"
  | stackvm_textposition_init _ _ _ => "stackvm_textposition_init"
  | stackvm_instructionspan_init _ _ _ => "stackvm_instructionspan_init"
  | stackvm_sourcemap_init _ => "stackvm_sourcemap_init"
  | stackvm_sourcemap_deinit _ => "stackvm_sourcemap_deinit"
  | stackvm_sourcemap_find _ _ _ => "stackvm_sourcemap_find"
  | stackvm_sourcemap_move _ => "stackvm_sourcemap_move"
  | stackvm_parser_init _ _ _ => "stackvm_parser_init"
  | stackvm_parser_deinit _ => "stackvm_parser_deinit"
  | stackvm_parser_get_position _ => "stackvm_parser_get_position"
  | stackvm_parser_get_source_map _ => "stackvm_parser_get_source_map"
  | stackvm_parser_get_err_message _ _ => "stackvm_parser_get_err_message"
  | stackvm_parser_get_current_line _ _ => "stackvm_parser_get_current_line"
  | stackvm_parser_get_source_span _ _ _ _ => "stackvm_parser_get_source_span"
  | stackvm_parser_parse _ => "stackvm_parser_parse"
  | stackvm_reader_get_len _ => "stackvm_reader_get_len"
  | stackvm_reader_deinit _ => "stackvm_reader_deinit"
  | stackvm_reader_destroy _ _ => "stackvm_reader_destroy"
  | stackvm_init _ _ => "stackvm_init"
  | stackvm_deinit _ => "stackvm_deinit"
  | stackvm_execute _ => "stackvm_execute"
  | stackvm_get_last_instruction _ => "stackvm_get_last_instruction"
  | stackvm_get_err_message _ _ => "stackvm_get_err_message"
  | stackvm_registers_get_frame_pointer _ => "stackvm_registers_get_frame_pointer"
  | stackvm_registers_set_frame_pointer _ _ => "stackvm_registers_set_frame_pointer"
  | stackvm_registers_get_global_pointer _ => "stackvm_registers_get_global_pointer"
  | stackvm_registers_set_global_pointer _ _ => "stackvm_registers_set_global_pointer"
  | stackvm_registers_get_code_pointer _ => "stackvm_registers_get_code_pointer"
  | stackvm_registers_set_code_pointer _ _ => "stackvm_registers_set_code_pointer"
  | stackvm_registers_get_stack_pointer _ => "stackvm_registers_get_stack_pointer"
  | stackvm_registers_set_stack_pointer _ _ => "stackvm_registers_set_stack_pointer"
  | stackvm_value_int _ => "stackvm_value_int"
  | stackvm_value_float _ => "stackvm_value_float"
  | stackvm_value_size _ _ => "stackvm_value_size"
  | stackvm_stack_get_len _ => "stackvm_stack_get_len"
  | stackvm_stack_load _ _ => "stackvm_stack_load"
  | stackvm_stack_store _ _ _ => "stackvm_stack_store"
  | stackvm_stack_store_int _ _ _ => "stackvm_stack_store_int"
  | stackvm_stack_store_float _ _ _ => "stackvm_stack_store_float"
  | stackvm_stack_store_address _ _ _ _ => "stackvm_stack_store_address"
  | stackvm_stack_push_int _ _ => "stackvm_stack_push_int"
  | stackvm_stack_push_float _ _ => "stackvm_stack_push_float"
  | stackvm_stack_push_address _ _ _ => "stackvm_stack_push_address"
  | stackvm_stack_pop _ => "stackvm_stack_pop"
  end.

Definition argc {R} (f : foreign R) : nat :=
  match f with
  | stackvm_allocator_init => 0
  | stackvm_allocator_deinit _ => 1
  | stackvm_textposition_init _ _ _ => 3
  | stackvm_instructionspan_init _ _ _ => 3
  | stackvm_sourcemap_init _ => 1
  | stackvm_sourcemap_deinit _ => 1
  | stackvm_sourcemap_find _ _ _ => 3
  | stackvm_sourcemap_move _ => 1
  | stackvm_parser_init _ _ _ => 3
  | stackvm_parser_deinit _ => 1
  | stackvm_parser_get_position _ => 1
  | stackvm_parser_get_source_map _ => 1
  | stackvm_parser_get_err_message _ _ => 2
  | stackvm_parser_get_current_line _ _ => 2
  | stackvm_parser_get_source_span _ _ _ _ => 4
  | stackvm_parser_parse _ => 1
  | stackvm_reader_get_len _ => 1
  | stackvm_reader_deinit _ => 1
  | stackvm_reader_destroy _ _ => 2
  | stackvm_init _ _ => 2
  | stackvm_deinit _ => 1
  | stackvm_execute _ => 1
  | stackvm_get_last_instruction _ => 1
  | stackvm_get_err_message _ _ => 2
  | stackvm_registers_get_frame_pointer _ => 1
  | stackvm_registers_set_frame_pointer _ _ => 2
  | stackvm_registers_get_global_pointer _ => 1
  | stackvm_registers_set_global_pointer _ _ => 2
  | stackvm_registers_get_code_pointer _ => 1
  | stackvm_registers_set_code_pointer _ _ => 2
  | stackvm_registers_get_stack_pointer _ => 1
  | stackvm_registers_set_stack_pointer _ _ => 2
  | stackvm_value_int _ => 1
  | stackvm_value_float _ => 1
  | stackvm_value_size _ _ => 2
  | stackvm_stack_get_len _ => 1
  | stackvm_stack_load _ _ => 2
  | stackvm_stack_store _ _ _ => 3
  | stackvm_stack_store_int _ _ _ => 3
  | stackvm_stack_store_float _ _ _ => 3
  | stackvm_stack_store_address _ _ _ _ => 4
  | stackvm_stack_push_int _ _ => 2
  | stackvm_stack_push_float _ _ => 2
  | stackvm_stack_push_address _ _ _ => 3
  | stackvm_stack_pop _ => 1
  end%nat.

(** ** Programs over foreign calls *)

Inductive prog (A : Type) : Type :=
| Ret (a : A)
| Raise (e : exn)
| Call {R : Type} (f : foreign R) (k : R → prog A).

Arguments Ret {A} a.
Arguments Raise {A} e.
Arguments Call {A R} f k.

Fixpoint bind {A B : Type} (p : prog A) (k : A → prog B) : prog B :=
  match p with
  | Ret a => k a
  | Raise e => Raise e
  | Call f k' => Call f (λ r, bind (k' r) k)
  end.

#[global] Instance prog_ret : MRet prog := λ A a, Ret a.
#[global] Instance prog_bind : MBind prog := λ A B k p, bind p k.

Definition lib {R : Type} (f : foreign R) : prog R := Call f Ret.

Inductive outcome (A : Type) : Type :=
| Returns (a : A)
| Raises (e : exn).

Arguments Returns {A} a.
Arguments Raises {A} e.

(** A model of the native library: what a call returns in a given state
    of the native side and the state it leaves, or [None] where the call
    has no defined result. *)
Definition library (world : Type) : Type :=
  ∀ R : Type, foreign R → world → option (R * world).

Section Run.
Context {world : Type} (native : library world).

Fixpoint exec {A : Type} (p : prog A) (w : world) : option (outcome A * world) :=
  match p with
  | Ret a => Some (Returns a, w)
  | Raise e => Some (Raises e, w)
  | Call f k =>
      match native _ f w with
      | Some (r, w') => exec (k r) w'
      | None => None
      end
  end.

(** The foreign functions a run invokes, in order, each with the number
    of arguments passed. *)
Fixpoint calls {A : Type} (p : prog A) (w : world) : list (string * nat) :=
  match p with
  | Ret _ | Raise _ => []
  | Call f k =>
      (symbol f, argc f) ::
      match native _ f w with
      | Some (r, w') => calls (k r) w'
      | None => []
      end
  end.
End Run.

(** ** The declarations: [declare(lib.f, argtypes, restype)], in source order *)

Definition declarations : list (string * (list ctype * option ctype)) := [
  ("stackvm_allocator_init", ([], Some c_void_p));
  ("stackvm_allocator_deinit", ([c_void_p], None));
  ("stackvm_textposition_init", ([c_uint32; c_uint32; c_uint32], Some (c_struct "TextPosition")));
  ("stackvm_textposition_init_empty", ([], Some (c_struct "TextPosition")));
  ("stackvm_instructionspan_init",
     ([c_size_t; c_struct "TextPosition"; c_struct "TextPosition"], Some (c_struct "InstructionSpan")));
  ("stackvm_instructionspan_init_empty", ([], Some (c_struct "InstructionSpan")));
  ("stackvm_sourcemap_init", ([c_void_p], Some (c_struct "SourceMap")));
  ("stackvm_sourcemap_deinit", ([POINTER (c_struct "SourceMap")], None));
  ("stackvm_sourcemap_find",
     ([POINTER (c_struct "SourceMap"); c_size_t; POINTER (c_struct "InstructionSpan")], Some c_int));
  ("stackvm_sourcemap_move", ([POINTER (c_struct "SourceMap")], Some (c_struct "SourceMap")));
  ("stackvm_parser_init", ([c_void_p; c_char_p; c_size_t], Some (c_struct "Parser")));
  ("stackvm_parser_deinit", ([POINTER (c_struct "Parser")], None));
  ("stackvm_parser_get_position", ([POINTER (c_struct "Parser")], Some (c_struct "TextPosition")));
  ("stackvm_parser_get_source_map", ([POINTER (c_struct "Parser")], Some (c_struct "SourceMap")));
  ("stackvm_parser_get_err_message", ([POINTER (c_struct "Parser"); POINTER c_size_t], Some c_char_p));
  ("stackvm_parser_get_current_line", ([POINTER (c_struct "Parser"); POINTER c_size_t], Some c_char_p));
  ("stackvm_parser_get_source_span",
     ([POINTER (c_struct "Parser"); c_struct "TextPosition"; c_struct "TextPosition"; POINTER c_size_t],
      Some c_char_p));
  ("stackvm_parser_parse", ([POINTER (c_struct "Parser")], Some c_void_p));
  ("stackvm_reader_deinit", ([c_void_p], None));
  ("stackvm_reader_destroy", ([c_void_p; c_void_p], None));
  ("stackvm_reader_get_len", ([c_void_p], Some c_size_t));
  ("stackvm_init", ([c_void_p], Some c_void_p));
  ("stackvm_deinit", ([c_void_p], None));
  ("stackvm_execute", ([c_void_p], Some c_bool));
  ("stackvm_get_last_instruction", ([c_void_p], Some c_size_t));
  ("stackvm_get_err_message", ([c_void_p; POINTER c_size_t], Some c_char_p));
  ("stackvm_registers_get_frame_pointer", ([c_void_p], Some c_size_t));
  ("stackvm_registers_set_frame_pointer", ([c_void_p; c_size_t], None));
  ("stackvm_registers_get_global_pointer", ([c_void_p], Some c_size_t));
  ("stackvm_registers_set_global_pointer", ([c_void_p; c_size_t], None));
  ("stackvm_registers_get_code_pointer", ([c_void_p], Some c_size_t));
  ("stackvm_registers_set_code_pointer", ([c_void_p; c_size_t], None));
  ("stackvm_registers_get_stack_pointer", ([c_void_p], Some c_size_t));
  ("stackvm_registers_set_stack_pointer", ([c_void_p; c_size_t], None));
  ("stackvm_value_int", ([c_int32], Some (c_struct "Value")));
  ("stackvm_value_float", ([c_double], Some (c_struct "Value")));
  ("stackvm_value_size", ([c_uint8; c_size_t], Some (c_struct "Value")));
  ("stackvm_stack_get_len", ([c_void_p], Some c_size_t));
  ("stackvm_stack_load", ([c_void_p; c_size_t], Some (c_struct "Value")));
  ("stackvm_stack_store_int", ([c_void_p; c_size_t; c_int32], None));
  ("stackvm_stack_store_float", ([c_void_p; c_size_t; c_double], None));
  ("stackvm_stack_store_address", ([c_void_p; c_size_t; c_uint8; c_size_t], None));
  ("stackvm_stack_push_int", ([c_void_p; c_int32], None));
  ("stackvm_stack_push_float", ([c_void_p; c_double], None));
  ("stackvm_stack_push_address", ([c_void_p; c_uint8; c_size_t], None));
  ("stackvm_stack_pop", ([c_void_p], Some (c_struct "Value")))
].

(** [lib.f.argtypes]: the last declaration of [f], if there is one. *)
Definition argtypes (f : string) : option (list ctype) :=
  fst <$> (list_to_map (reverse declarations) : gmap string (list ctype * option ctype)) !! f.

(** ** Marshalling *)

(** An integer parameter takes a Python [int] and nothing else. *)
Definition int_param (t : ctype) (x : pyval) : prog Z :=
  match x with
  | PyInt z => Ret (wrap t z)
  | _ => Raise ArgumentError
  end.

(** A [c_double] parameter takes a [float], or an [int] that converts. *)
Definition double_param `{PythonRuntime} (x : pyval) : prog double :=
  match x with
  | PyFloat d => Ret d
  | PyInt z => match float_of_int z with Some d => Ret d | None => Raise ArgumentError end
  | _ => Raise ArgumentError
  end.

(** The bytes of a C string: everything before the first NUL. *)
Fixpoint c_string (bs : list byte) : list byte :=
  match bs with
  | [] => []
  | b :: bs' => if Byte.eqb b x00 then [] else b :: c_string bs'
  end.

(** [create_string_buffer(init, size)]: an array of [size] chars holding
    [init], which must be a bytes object.  The array type [c_char * size]
    needs a length that is not negative and fits a signed 64-bit index,
    the array itself needs the memory, and the bytes must be no longer
    than the array. *)
Definition create_string_buffer `{PythonRuntime} (init : option (list byte)) (size : Z)
  : prog (list byte) :=
  match init with
  | None => Raise TypeError
  | Some bs =>
      if 2 ^ 63 <=? size then Raise OverflowError
      else if size <? 0 then Raise ValueError
      else if negb (can_allocate size) then Raise MemoryError
      else if size <? Z.of_nat (length bs) then Raise ValueError
      else Ret (bs ++ replicate (Z.to_nat size - length bs) x00)%list
  end.

(** [buffer.value.decode()] *)
Definition value_decode `{PythonRuntime} (buffer : list byte) : prog string :=
  match bytes_decode (c_string buffer) with
  | Some s => Ret s
  | None => Raise UnicodeDecodeError
  end.

(** The tail every text accessor shares: the string at [err_ptr] when the
    callee reported a length, [None] otherwise. *)
Definition text_result `{PythonRuntime} (err_ptr : option (list byte)) (err_len : Z)
  : prog (option string) :=
  if 0 <? err_len then
    buffer ← create_string_buffer err_ptr err_len;
    s ← value_decode buffer;
    mret (Some s)
  else mret None.

(** [f"{t}"] for a text that may be [None]. *)
Definition format_text (t : option string) : string :=
  match t with
  | Some s => s
  | None => "None"
  end.

Definition pyval_of_text (t : option string) : pyval :=
  match t with
  | Some s => PyStr s
  | None => PyNone
  end.

(** ** The classes *)

Section Binding.
Context `{PythonRuntime}.
(** The module's [global_allocator]. *)
Variable global_allocator : Z.

(** *** TextPosition, InstructionSpan *)

Definition TextPosition_init (line column offset : Z) : prog TextPosition :=
  lib (stackvm_textposition_init (wrap c_uint32 line) (wrap c_uint32 column) (wrap c_uint32 offset)).

Definition InstructionSpan_init (instruction : Z) (start end_ : option TextPosition)
  : prog InstructionSpan :=
  s ← match start with Some s => mret s | None => TextPosition_init 0 0 0 end;
  e ← match end_ with Some e => mret e | None => TextPosition_init 0 0 0 end;
  lib (stackvm_instructionspan_init (wrap c_size_t instruction) s e).

(** *** SourceMap *)

Definition SourceMap_init : prog SourceMap :=
  lib (stackvm_sourcemap_init global_allocator).

Definition SourceMap_deinit (self : SourceMap) : prog unit :=
  lib (stackvm_sourcemap_deinit self).

Definition SourceMap_find (self : SourceMap) (bytecode_pos : Z) : prog (option InstructionSpan) :=
  result ← InstructionSpan_init 0 None None;
  r ← lib (stackvm_sourcemap_find self (wrap c_size_t bytecode_pos) result);
  if r.1 =? 0 then mret None else mret (Some r.2).

Definition SourceMap_move (self : SourceMap) : prog SourceMap :=
  lib (stackvm_sourcemap_move self).

(** *** Parser *)

Definition Parser_init (source : string) : prog Parser :=
  let buffer := str_encode source in
  lib (stackvm_parser_init global_allocator buffer
         (wrap c_size_t (Z.of_nat (length buffer)))).

Definition Parser_deinit (self : Parser) : prog unit :=
  lib (stackvm_parser_deinit self).

Definition Parser_get_position (self : Parser) : prog TextPosition :=
  lib (stackvm_parser_get_position self).

Definition Parser_get_source_map (self : Parser) : prog SourceMap :=
  lib (stackvm_parser_get_source_map self).

Definition Parser_get_err_message (self : Parser) : prog (option string) :=
  r ← lib (stackvm_parser_get_err_message self 1);
  text_result r.1 r.2.

Definition Parser_get_current_line (self : Parser) : prog (option string) :=
  r ← lib (stackvm_parser_get_current_line self 1);
  text_result r.1 r.2.

Definition Parser_get_source_span (self : Parser) (start end_ : TextPosition)
  : prog (option string) :=
  r ← lib (stackvm_parser_get_source_span self start end_ 1);
  text_result r.1 r.2.

(** The text of the exception [parse] raises. *)
Definition parse_error_text (msg : option string) (pos : TextPosition) : string :=
  format_text msg
    +:+ " (line " +:+ pretty (line pos + 1)
    +:+ ", column " +:+ pretty (column pos + 1) +:+ ")".

Definition Parser_parse (self : Parser) : prog Reader :=
  addr ← lib (stackvm_parser_parse self);
  if addr =? 0 then
    msg ← Parser_get_err_message self;
    pos ← Parser_get_position self;
    Raise (Exception (PyStr (parse_error_text msg pos)))
  else mret {| Reader_ptr := addr |}.

(** *** Reader *)


Definition Reader_deinit (self : Reader) : prog unit :=
  lib (stackvm_reader_deinit (Reader_ptr self)).

Definition Reader_destroy (self : Reader) : prog unit :=
  lib (stackvm_reader_destroy global_allocator (Reader_ptr self)).

(** *** VirtualMachine *)

Definition VirtualMachine_init (reader : Reader) : prog VirtualMachine :=
  m ← lib (stackvm_init global_allocator (Reader_ptr reader));
  mret {| ptr := m |}.



Definition VirtualMachine_deinit (self : VirtualMachine) : prog unit :=
  lib (stackvm_deinit (ptr self)).


Definition VirtualMachine_err_message (self : VirtualMachine) : prog (option string) :=
  r ← lib (stackvm_get_err_message (ptr self) 1);
  text_result r.1 r.2.

Definition VirtualMachine_execute (self : VirtualMachine) : prog unit :=
  success ← lib (stackvm_execute (ptr self));
  if success : bool then mret tt
  else
    msg ← VirtualMachine_err_message self;
    Raise (Exception (pyval_of_text msg)).

(** *** Registers *)


Definition Registers_set_frame_pointer (self : Registers) (value : Z) : prog unit :=
  lib (stackvm_registers_set_frame_pointer (ptr (Registers_vm self)) (wrap c_size_t value)).


Definition Registers_set_global_pointer (self : Registers) (value : Z) : prog unit :=
  lib (stackvm_registers_set_global_pointer (ptr (Registers_vm self)) (wrap c_size_t value)).




Definition Registers_set_stack_pointer (self : Registers) (value : Z) : prog unit :=
  lib (stackvm_registers_set_stack_pointer (ptr (Registers_vm self)) (wrap c_size_t value)).

(** *** Value *)

Definition Value_init (type : ValueType) (value : pyval) : prog Value :=
  if type =? NONE then
    Raise (Exception (PyStr "Cannot create value of type NONE"))
  else if type =? INTEGER then
    x ← int_param c_int32 value;
    lib (stackvm_value_int x)
  else if type =? FLOAT then
    x ← double_param value;
    lib (stackvm_value_float x)
  else
    k ← int_param c_uint8 (PyInt type);
    x ← int_param c_size_t value;
    lib (stackvm_value_size k x).

(** The [value] property. *)
Definition Value_value (self : Value) : pyval :=
  if INTEGER =? kind self then PyInt (integer (_value self))
  else if FLOAT =? kind self then PyFloat (float (_value self))
  else PyInt (size (_value self)).

(** *** Stack *)

Definition Stack_len (self : Stack) : prog Z :=
  lib (stackvm_stack_get_len (ptr (vm self))).

Definition Stack_load (self : Stack) (index : Z) : prog Value :=
  lib (stackvm_stack_load (ptr (vm self)) (wrap c_size_t index)).

(** The first [def store] of the class body.  [stackvm_stack_store] has
    no declaration, so its integer argument is passed as a C [int] and
    the structure by value. *)
Definition Stack_store_generic (self : Stack) (index : Z) (value : Value) : prog unit :=
  lib (stackvm_stack_store (ptr (vm self)) (wrap c_int index) value).

(** The second [def store] of the class body. *)
Definition Stack_store_by_kind (self : Stack) (index : Z) (value : Value) : prog unit :=
  if kind value =? INTEGER then
    x ← int_param c_int32 (Value_value value);
    lib (stackvm_stack_store_int (ptr (vm self)) (wrap c_size_t index) x)
  else if kind value =? FLOAT then
    x ← double_param (Value_value value);
    lib (stackvm_stack_store_float (ptr (vm self)) (wrap c_size_t index) x)
  else
    k ← int_param c_uint8 (PyInt (kind value));
    x ← int_param c_size_t (Value_value value);
    lib (stackvm_stack_store_address (ptr (vm self)) (wrap c_size_t index) k x).

Definition Stack_push (self : Stack) (value : Value) : prog unit :=
  if kind value =? INTEGER then
    x ← int_param c_int32 (Value_value value);
    lib (stackvm_stack_push_int (ptr (vm self)) x)
  else if kind value =? FLOAT then
    x ← double_param (Value_value value);
    lib (stackvm_stack_push_float (ptr (vm self)) x)
  else
    k ← int_param c_uint8 (PyInt (kind value));
    x ← int_param c_size_t (Value_value value);
    lib (stackvm_stack_push_address (ptr (vm self)) k x).

Definition Stack_pop (self : Stack) : prog Value :=
  lib (stackvm_stack_pop (ptr (vm self))).

(** The class body binds its names in order, a later [def] replacing an
    earlier one of the same name in the class namespace. *)
Inductive method : Type :=
| Method_len (f : Stack → prog Z)
| Method_load (f : Stack → Z → prog Value)
| Method_store (f : Stack → Z → Value → prog unit)
| Method_push (f : Stack → Value → prog unit)
| Method_pop (f : Stack → prog Value).

Definition Stack_body : list (string * method) := [
  ("__len__", Method_len Stack_len);
  ("load", Method_load Stack_load);
  ("store", Method_store Stack_store_generic);
  ("store", Method_store Stack_store_by_kind);
  ("push", Method_push Stack_push);
  ("pop", Method_pop Stack_pop)
].

Definition class_namespace (body : list (string * method)) : gmap string method :=
  foldl (λ ns d, <[d.1 := d.2]> ns) ∅ body.

(** [stack.store(index, value)]: attribute lookup, then the call. *)
Definition Stack_store (self : Stack) (index : Z) (value : Value) : prog unit :=
  match class_namespace Stack_body !! "store" with
  | Some (Method_store f) => f self index value
  | _ => Raise AttributeError
  end.
End Binding.

(** * The native library

    The exported functions are compiled from sources that are not part of
    the binding.  Those the properties below depend on are modelled from
    the specification of the core; every other call is left to an
    arbitrary model of the rest of the library. *)

Module Native.

(** ** Values *)

(** Modelled from the spec: the native Value, which the binding sees only
    as a [Value] structure: "a closed tagged union of {None, Integer,
    Float, AddressHeap, AddressString, AddressCode, AddressStack}", an
    Integer carrying a 32-bit signed integer, a Float a double and each
    Address kind a size_t index. *)
Inductive value : Type :=
| VNone
| VInteger (i : Z)
| VFloat (d : double)
| VAddressHeap (a : Z)
| VAddressString (a : Z)
| VAddressCode (a : Z)
| VAddressStack (a : Z).

(** Modelled from the spec: the structure a native Value crosses the
    boundary as, its kind byte followed by the payload field of that
    kind ("inspect a returned Value's kind byte before reading its
    payload field"). *)
Definition export (v : value) : Value :=
  match v with
  | VNone => {| kind := NONE; _value := {| storage := 0 |} |}
  | VInteger i => {| kind := INTEGER; _value := {| storage := unsigned 32 i |} |}
  | VFloat d => {| kind := FLOAT; _value := {| storage := unsigned 64 (bits d) |} |}
  | VAddressHeap a => {| kind := ADDRESS_HEAP; _value := {| storage := unsigned 64 a |} |}
  | VAddressString a => {| kind := ADDRESS_STRING; _value := {| storage := unsigned 64 a |} |}
  | VAddressCode a => {| kind := ADDRESS_CODE; _value := {| storage := unsigned 64 a |} |}
  | VAddressStack a => {| kind := ADDRESS_STACK; _value := {| storage := unsigned 64 a |} |}
  end.

(** Modelled from the spec: the constructor the four Address kinds share,
    "parameterized by an explicit kind tag plus a size_t payload"; a tag
    that is not an Address kind constructs nothing. *)
Definition address (k x : Z) : option value :=
  if k =? ADDRESS_HEAP then Some (VAddressHeap x)
  else if k =? ADDRESS_STRING then Some (VAddressString x)
  else if k =? ADDRESS_CODE then Some (VAddressCode x)
  else if k =? ADDRESS_STACK then Some (VAddressStack x)
  else None.

(** ** The source map *)

(** Modelled from the spec: [find] on "a balanced ordered tree keyed by
    instruction index". *)
Fixpoint lookup (i : Z) (t : rbnode) : option InstructionSpan :=
  match t with
  | Leaf => None
  | Node _ l s r =>
      if i <? instruction s then lookup i l
      else if instruction s <? i then lookup i r
      else Some s
  end.

(** Modelled from the spec: insertion into the red-black tree the
    structure [RedBlackTree_InstructionSpan] names, rebalancing on the
    way up and blackening the root. *)
Definition balance (c : color) (l : rbnode) (s : InstructionSpan) (r : rbnode) : rbnode :=
  match c with
  | Red => Node Red l s r
  | Black =>
      match l with
      | Node Red (Node Red a x b) y c' =>
          Node Red (Node Black a x b) y (Node Black c' s r)
      | Node Red a x (Node Red b y c') =>
          Node Red (Node Black a x b) y (Node Black c' s r)
      | _ =>
          match r with
          | Node Red (Node Red b y c') z d =>
              Node Red (Node Black l s b) y (Node Black c' z d)
          | Node Red b y (Node Red c' z d) =>
              Node Red (Node Black l s b) y (Node Black c' z d)
          | _ => Node Black l s r
          end
      end
  end.

(** Modelled from the spec: the descent of an insertion, which replaces
    the span of an index already present ("indices are unique keys"). *)
Fixpoint ins (s : InstructionSpan) (t : rbnode) : rbnode :=
  match t with
  | Leaf => Node Red Leaf s Leaf
  | Node c l s' r =>
      if instruction s <? instruction s' then balance c (ins s l) s' r
      else if instruction s' <? instruction s then balance c l s' (ins s r)
      else Node c l s r
  end.

(** Modelled from the spec: the root of a red-black tree is black. *)
Definition blacken (t : rbnode) : rbnode :=
  match t with
  | Leaf => Leaf
  | Node _ l s r => Node Black l s r
  end.

(** Modelled from the spec: insertion into the tree structure, whose
    [len] counts the spans it holds. *)
Definition insert (s : InstructionSpan) (t : RedBlackTree_InstructionSpan)
  : RedBlackTree_InstructionSpan :=
  {| allocator := allocator t;
     len := match lookup (instruction s) (root t) with
            | Some _ => len t
            | None => len t + 1
            end;
     root := blacken (ins s (root t)) |}.

(** Modelled from the spec: a new source map is empty, at the start of
    the text, with the instruction counter at zero. *)
Definition sourcemap_init (a : Z) : SourceMap :=
  {| instructions_positions := {| allocator := a; len := 0; root := Leaf |};
     current_position := {| line := 0; column := 0; offset := 0 |};
     current_instruction := 0 |}.

(** Modelled from the spec: what the parser does per emitted
    instruction: it "records its [start, end) source-text span and
    inserts an InstructionSpan into the SourceMap keyed by the
    instruction's index, then advances the instruction counter". *)
Definition record_span (m : SourceMap) (s e : TextPosition) : SourceMap :=
  {| instructions_positions :=
       insert {| instruction := current_instruction m; start := s; end_ := e |}
              (instructions_positions m);
     current_position := e;
     current_instruction := current_instruction m + 1 |}.

(** Modelled from the spec: the source map of a successful parse that
    emitted one instruction per listed source range, in order. *)
Definition compiled (a : Z) (ranges : list (TextPosition * TextPosition)) : SourceMap :=
  foldl (λ m se, record_span m se.1 se.2) (sourcemap_init a) ranges.

(** Modelled from the spec: [find(instruction_index)] answers with the
    span recorded under that index, written through the result pointer,
    and says whether there was one. *)
Definition sourcemap_find (self : SourceMap) (pos : Z) (result : InstructionSpan)
  : Z * InstructionSpan :=
  match lookup pos (root (instructions_positions self)) with
  | Some s => (1, s)
  | None => (0, result)
  end.

(** ** The machine *)

(** Modelled from the spec: "four word-sized indices (frame, global,
    code, stack pointers)". *)
Record registers : Type := {
  frame_pointer : Z;
  global_pointer : Z;
  code_pointer : Z;
  stack_pointer : Z;
}.

(** Modelled from the spec: "Registers expose direct get/set per
    register"; this is the set of the code pointer. *)
Definition set_code_pointer (x : Z) (r : registers) : registers :=
  {| frame_pointer := frame_pointer r; global_pointer := global_pointer r;
     code_pointer := x; stack_pointer := stack_pointer r |}.

(** Modelled from the spec: what executing one instruction does.  The
    spec gives no instruction set, only the shape of an effect: it "may
    push/pop/load/store Stack values, adjust any register, or alter
    code_pointer for control transfer", it may be the designated halt,
    or it may detect a fault. *)
Inductive effect : Type :=
| Next (r : registers) (s : list value) (redirected : bool)
| Halt
| Fault (message : list byte).

Class InstructionSet : Type := {
  instr : Type;
  perform : instr → registers → list value → effect;
  (* the message of the fault of a fetch from outside the code *)
  out_of_range : list byte;
}.

Section Machine.
Context `{InstructionSet}.

(** Modelled from the spec: a VirtualMachine "owns a Reader, Registers,
    and Stack", and keeps the diagnostics of its last fault. *)
Record machine : Type := {
  code : list instr;
  regs : registers;
  stack : list value;
  last_instruction : Z;
  err_message : list byte;
}.

(** Modelled from the spec: the fetch, which needs the code pointer to
    "denote a position within [0, length(Reader))". *)
Definition fetch (st : machine) : option instr :=
  let cp := code_pointer (regs st) in
  if 0 <=? cp then code st !! Z.to_nat cp else None.

(** Modelled from the spec: the machine a fault leaves behind:
    "last_instruction records the code_pointer at the moment of fault,
    err_message is populated, and all Registers/Stack contents remain
    inspectable". *)
Definition faulted (message : list byte) (st : machine) : machine :=
  {| code := code st; regs := regs st; stack := stack st;
     last_instruction := code_pointer (regs st);
     err_message := message |}.

(** Modelled from the spec: the fetch-decode-execute loop.  It "fetches
    the instruction at code_pointer, decodes it, and executes its
    effect, then advances code_pointer unless the instruction itself
    redirected it".  It ends when the halt instruction executes; when
    "code_pointer advances past the end of the Reader (treated as
    normal program end)", the position just after the last
    instruction; or on a fault, of an instruction or of the fetch itself:
    "an out-of-range code_pointer does not fault immediately on set,
    only when the loop next tries to fetch from it".  The result is the
    success flag and the state left behind; [None] when the steps
    allowed do not suffice. *)
Fixpoint run (steps : nat) (st : machine) : option (bool * machine) :=
  match steps with
  | O => None
  | S steps' =>
      match fetch st with
      | None =>
          if code_pointer (regs st) =? Z.of_nat (length (code st))
          then Some (true, st)
          else Some (false, faulted out_of_range st)
      | Some i =>
          match perform i (regs st) (stack st) with
          | Halt => Some (true, st)
          | Fault message => Some (false, faulted message st)
          | Next r s redirected =>
              let r' := if redirected then r
                        else set_code_pointer (code_pointer r + 1) r in
              run steps'
                  {| code := code st; regs := r'; stack := s;
                     last_instruction := last_instruction st;
                     err_message := err_message st |}
          end
      end
  end.

(** Modelled from the spec: a machine with its registers, or its stack,
    replaced and everything else kept. *)
Definition with_regs (r : registers) (st : machine) : machine :=
  {| code := code st; regs := r; stack := stack st;
     last_instruction := last_instruction st; err_message := err_message st |}.

Definition with_stack (s : list value) (st : machine) : machine :=
  {| code := code st; regs := regs st; stack := s;
     last_instruction := last_instruction st; err_message := err_message st |}.

(** Modelled from the spec: the Stack operations.  [load] and [store]
    need an index "< length" ("storing at an unoccupied index is
    erroneous, not an implicit grow"), [push] "appends, grows length
    by one" and [pop] "removes and returns the last element,
    erroneous on an empty stack". *)
Definition stack_load (i : Z) (st : machine) : option value :=
  if 0 <=? i then stack st !! Z.to_nat i else None.

Definition stack_store (i : Z) (v : value) (st : machine) : option machine :=
  if (0 <=? i) && (i <? Z.of_nat (length (stack st)))
  then Some (with_stack (<[Z.to_nat i := v]> (stack st)) st)
  else None.

Definition stack_push (v : value) (st : machine) : machine :=
  with_stack (stack st ++ [v])%list st.

Definition stack_pop (st : machine) : option (value * machine) :=
  match last (stack st) with
  | Some v => Some (v, with_stack (removelast (stack st)) st)
  | None => None
  end.

(** ** The state of the native side *)

(** Modelled from the spec: the opaque handles of the boundary, each
    "routed exclusively through its matching lifecycle functions": what a
    Reader handle and a VirtualMachine handle stand for. *)
Record world : Type := {
  readers : gmap Z (list instr);
  machines : gmap Z machine;
}.

(** Modelled from the spec: the native side after the machine behind
    handle [m] has changed. *)
Definition set_machine (m : Z) (st : machine) (w : world) : world :=
  {| readers := readers w; machines := <[m := st]> (machines w) |}.

(** Modelled from the spec: a query of the machine behind handle [m],
    which there must be. *)
Definition query {R : Type} (m : Z) (f : machine → R) (w : world) : option (R * world) :=
  st ← machines w !! m; Some (f st, w).

(** Modelled from the spec: an operation on the machine behind handle
    [m], which there must be. *)
Definition update {R : Type} (m : Z) (f : machine → option (R * machine)) (w : world)
  : option (R * world) :=
  st ← machines w !! m;
  r ← f st;
  Some (r.1, set_machine m r.2 w).

(** Modelled from the spec: a diagnostic text as it crosses the boundary,
    a pointer to its bytes and its length, "where a zero length means no
    message". *)
Definition text (message : list byte) : option (list byte) * Z :=
  (Some (c_string message), Z.of_nat (length message)).

(** Modelled from the spec: the exported functions over this state.
    [steps] bounds the instructions one [execute] may run; [rest]
    answers the calls not modelled. *)
Definition model (steps : nat) (rest : library world) : library world :=
  λ R f,
    match f in foreign R return world → option (R * world) with
    | stackvm_textposition_init l c o =>
        λ w, Some ({| line := l; column := c; offset := o |}, w)
    | stackvm_instructionspan_init i s e =>
        λ w, Some ({| instruction := i; start := s; end_ := e |}, w)
    | stackvm_sourcemap_init a => λ w, Some (sourcemap_init a, w)
    | stackvm_sourcemap_find self pos result =>
        λ w, Some (sourcemap_find self pos result, w)
    | stackvm_reader_get_len r =>
        λ w, code ← readers w !! r; Some (Z.of_nat (length code), w)
    | stackvm_execute m => update m (run steps)
    | stackvm_get_last_instruction m => query m last_instruction
    | stackvm_get_err_message m _ => query m (λ st, text (err_message st))
    | stackvm_registers_get_frame_pointer m => query m (λ st, frame_pointer (regs st))
    | stackvm_registers_get_global_pointer m => query m (λ st, global_pointer (regs st))
    | stackvm_registers_get_code_pointer m => query m (λ st, code_pointer (regs st))
    | stackvm_registers_get_stack_pointer m => query m (λ st, stack_pointer (regs st))
    | stackvm_registers_set_frame_pointer m x =>
        update m (λ st, Some (tt, with_regs
          {| frame_pointer := x; global_pointer := global_pointer (regs st);
             code_pointer := code_pointer (regs st);
             stack_pointer := stack_pointer (regs st) |} st))
    | stackvm_registers_set_global_pointer m x =>
        update m (λ st, Some (tt, with_regs
          {| frame_pointer := frame_pointer (regs st); global_pointer := x;
             code_pointer := code_pointer (regs st);
             stack_pointer := stack_pointer (regs st) |} st))
    | stackvm_registers_set_code_pointer m x =>
        update m (λ st, Some (tt, with_regs (set_code_pointer x (regs st)) st))
    | stackvm_registers_set_stack_pointer m x =>
        update m (λ st, Some (tt, with_regs
          {| frame_pointer := frame_pointer (regs st);
             global_pointer := global_pointer (regs st);
             code_pointer := code_pointer (regs st); stack_pointer := x |} st))
    | stackvm_value_int x => λ w, Some (export (VInteger x), w)
    | stackvm_value_float x => λ w, Some (export (VFloat x), w)
    | stackvm_value_size k x => λ w, v ← address k x; Some (export v, w)
    | stackvm_stack_get_len m => query m (λ st, Z.of_nat (length (stack st)))
    | stackvm_stack_load m i =>
        λ w, st ← machines w !! m; v ← stack_load i st; Some (export v, w)
    | stackvm_stack_store_int m i x =>
        update m (λ st, st' ← stack_store i (VInteger x) st; Some (tt, st'))
    | stackvm_stack_store_float m i x =>
        update m (λ st, st' ← stack_store i (VFloat x) st; Some (tt, st'))
    | stackvm_stack_store_address m i k x =>
        update m (λ st, v ← address k x; st' ← stack_store i v st; Some (tt, st'))
    | stackvm_stack_push_int m x => update m (λ st, Some (tt, stack_push (VInteger x) st))
    | stackvm_stack_push_float m x => update m (λ st, Some (tt, stack_push (VFloat x) st))
    | stackvm_stack_push_address m k x =>
        update m (λ st, v ← address k x; Some (tt, stack_push v st))
    | stackvm_stack_pop m => update m (λ st, r ← stack_pop st; Some (export r.1, r.2))
    | f' => rest _ f'
    end.
End Machine.
End Native.

(** ** Instances for the worked examples *)

(** An interpreter restricted to ASCII text, which UTF-8 encodes byte for
    byte, to the one [int] whose conversion to [float] needs no rounding
    rule, and to arrays below two gigabytes. *)
Definition ascii_runtime : PythonRuntime := {|
  str_encode := String.list_byte_of_string;
  bytes_decode bs :=
    if forallb (λ b, (Byte.to_N b <? 128)%N) bs
    then Some (String.string_of_list_byte bs) else None;
  float_of_int z := if z =? 0 then Some (Double 0) else None;
  can_allocate n := n <? 2 ^ 31;
|}.

(** A small instruction set in the shape the machine expects: push a
    constant, add or divide the two topmost integers, jump, halt. *)
Inductive sample_instr : Type :=
| PUSH (v : Native.value)
| ADD
| DIV
| JUMP (target : Z)
| HALT.

Definition sample_perform (i : sample_instr) (r : Native.registers) (s : list Native.value)
  : Native.effect :=
  match i with
  | PUSH v => Native.Next r (s ++ [v])%list false
  | ADD =>
      match reverse s with
      | Native.VInteger b :: Native.VInteger a :: s' =>
          Native.Next r (reverse s' ++ [Native.VInteger (signed 32 (a + b))])%list false
      | _ :: _ :: _ => Native.Fault (String.list_byte_of_string "kind mismatch")
      | _ => Native.Fault (String.list_byte_of_string "stack underflow")
      end
  | DIV =>
      match reverse s with
      | Native.VInteger b :: Native.VInteger a :: s' =>
          if b =? 0 then Native.Fault (String.list_byte_of_string "division by zero")
          else Native.Next r (reverse s' ++ [Native.VInteger (signed 32 (a ÷ b))])%list false
      | _ :: _ :: _ => Native.Fault (String.list_byte_of_string "kind mismatch")
      | _ => Native.Fault (String.list_byte_of_string "stack underflow")
      end
  | JUMP target => Native.Next (Native.set_code_pointer target r) s true
  | HALT => Native.Halt
  end.

Definition sample_set : Native.InstructionSet :=
  {| Native.instr := sample_instr; Native.perform := sample_perform;
     Native.out_of_range := String.list_byte_of_string "code pointer out of range" |}.

(** A rest of the library that answers no call. *)
Definition no_rest {world : Type} : library world := λ _ _ _, None.

Definition zero_registers : Native.registers :=
  {| Native.frame_pointer := 0; Native.global_pointer := 0;
     Native.code_pointer := 0; Native.stack_pointer := 0 |}.

(** A native side holding one reader, at address 16, and one machine over
    its code, at address 32, with the given stack. *)
Definition sample_world (program : list sample_instr) (s : list Native.value)
  : Native.world (H := sample_set) :=
  @Native.Build_world sample_set
    {[ 16 := program ]}
    {[ 32 := @Native.Build_machine sample_set program zero_registers s 0 [] ]}.

(** A program that divides by zero, and the native side its fault leaves
    behind. *)
Definition dividing_program : list sample_instr :=
  [PUSH (Native.VInteger 1); PUSH (Native.VInteger 0); DIV; HALT].

Definition faulted_world : Native.world (H := sample_set) :=
  @Native.Build_world sample_set
    {[ 16 := dividing_program ]}
    {[ 32 := @Native.Build_machine sample_set dividing_program
               (Native.set_code_pointer 2 zero_registers)
               [Native.VInteger 1; Native.VInteger 0] 2
               (String.list_byte_of_string "division by zero") ]}.

(** ** The contract, in the words of the specification *)

(** Value construction: Integer and Float "each have a dedicated
    constructor taking a native-width parameter", and the four Address
    kinds "share one constructor parameterized by an explicit kind tag plus
    a size_t payload".  This is the constructor call a kind and a payload
    stand for; there is none for the None kind, nor for a payload that is
    not of the parameter's type. *)
Definition constructor `{PythonRuntime} (type : ValueType) (payload : pyval)
  : option (foreign Value) :=
  match type, payload with
  | NONE, _ => None
  | INTEGER, PyInt z => Some (stackvm_value_int (signed 32 z))
  | INTEGER, _ => None
  | FLOAT, PyFloat d => Some (stackvm_value_float d)
  | FLOAT, PyInt z => stackvm_value_float <$> float_of_int z
  | FLOAT, _ => None
  | _, PyInt z => Some (stackvm_value_size type (unsigned 64 z))
  | _, _ => None
  end.

(** "store and push are exposed as kind-specialized entry points": the
    entry point a store of a value of kind byte [k] goes to, and the
    number of arguments it takes. *)
Definition store_entry_point (k : Z) : string * nat :=
  if decide (k = INTEGER) then ("stackvm_stack_store_int", 3%nat)
  else if decide (k = FLOAT) then ("stackvm_stack_store_float", 3%nat)
  else ("stackvm_stack_store_address", 4%nat).

(** The foreign calls a method of the Stack class makes on the given
    arguments. *)
Definition method_calls {world : Type} (native : library world) (meth : method)
    (self : Stack) (index : Z) (value : Value) (w : world) : list (string * nat) :=
  match meth with
  | Method_len f => calls native (f self) w
  | Method_load f => calls native (f self index) w
  | Method_store f => calls native (f self index value) w
  | Method_push f => calls native (f self value) w
  | Method_pop f => calls native (f self) w
  end.

(** The accessors that "read diagnostic text via a length-out-parameter
    convention": the foreign call each one makes, its out-length primed
    with 1, and the method itself. *)
Inductive accessor : Type :=
| Parser_err_message (self : Parser)
| Parser_current_line (self : Parser)
| Parser_source_span (self : Parser) (start end_ : TextPosition)
| Machine_err_message (self : VirtualMachine).

Definition accessor_call (a : accessor) : foreign (option (list byte) * Z) :=
  match a with
  | Parser_err_message self => stackvm_parser_get_err_message self 1
  | Parser_current_line self => stackvm_parser_get_current_line self 1
  | Parser_source_span self s e => stackvm_parser_get_source_span self s e 1
  | Machine_err_message self => stackvm_get_err_message (ptr self) 1
  end.

Definition accessor_read `{PythonRuntime} (a : accessor) : prog (option string) :=
  match a with
  | Parser_err_message self => Parser_get_err_message self
  | Parser_current_line self => Parser_get_current_line self
  | Parser_source_span self s e => Parser_get_source_span self s e
  | Machine_err_message self => VirtualMachine_err_message self
  end.


(** A Value as a caller can construct one: of any kind but None, which is
    "a sentinel kind, never user-constructible". *)
Definition constructed (v : Value) : Prop :=
  ∃ t : ValueType, t ≠ NONE ∧ kind v = t.

(** The native Value a structure stands for: the payload field of its
    kind, under its kind tag. *)
Definition native_of (v : Value) : Native.value :=
  if kind v =? INTEGER then Native.VInteger (integer (_value v))
  else if kind v =? FLOAT then Native.VFloat (float (_value v))
  else if kind v =? ADDRESS_HEAP then Native.VAddressHeap (size (_value v))
  else if kind v =? ADDRESS_STRING then Native.VAddressString (size (_value v))
  else if kind v =? ADDRESS_CODE then Native.VAddressCode (size (_value v))
  else if kind v =? ADDRESS_STACK then Native.VAddressStack (size (_value v))
  else Native.VNone.

(** [push(v); pop()], with the length of the stack taken before and
    after. *)
Definition push_then_pop `{PythonRuntime} (self : Stack) (v : Value) : prog (Z * Value * Z) :=
  before ← Stack_len self;
  _ ← Stack_push self v;
  popped ← Stack_pop self;
  after ← Stack_len self;
  mret (before, popped, after).

(** [store(i, v); load(i)]. *)
Definition store_then_load `{PythonRuntime} (self : Stack) (i : Z) (v : Value) : prog Value :=
  _ ← Stack_store self i v;
  Stack_load self i.

(** The search-tree invariant of the span tree: every index in a left
    subtree is below the node's, every index in a right subtree above. *)
Fixpoint keys_in (P : Z → Prop) (t : rbnode) : Prop :=
  match t with
  | Leaf => True
  | Node _ l s r => keys_in P l ∧ P (instruction s) ∧ keys_in P r
  end.

Fixpoint ordered (t : rbnode) : Prop :=
  match t with
  | Leaf => True
  | Node _ l s r =>
      ordered l ∧ ordered r
      ∧ keys_in (λ k, k < instruction s) l
      ∧ keys_in (λ k, instruction s < k) r
  end.

(** The span the parser records for the instruction of index [i], given
    the source range it was compiled from. *)
Definition span_of (i : Z) (range : TextPosition * TextPosition) : InstructionSpan :=
  {| instruction := i; start := range.1; end_ := range.2 |}.


(** ** What a call amounts to *)

(** The one foreign call [push(value)] amounts to: the entry point of the
    value's kind, on the payload the [value] property reads. *)
Definition push_call (m : Z) (value : Value) : foreign () :=
  if decide (kind value = INTEGER) then stackvm_stack_push_int m (integer (_value value))
  else if decide (kind value = FLOAT) then stackvm_stack_push_float m (float (_value value))
  else stackvm_stack_push_address m (kind value) (size (_value value)).

(** The one foreign call [store(index, value)] amounts to, the index
    reduced to a [size_t]. *)
Definition store_call (m index : Z) (value : Value) : foreign () :=
  if decide (kind value = INTEGER)
  then stackvm_stack_store_int m (unsigned 64 index) (integer (_value value))
  else if decide (kind value = FLOAT)
  then stackvm_stack_store_float m (unsigned 64 index) (float (_value value))
  else stackvm_stack_store_address m (unsigned 64 index) (kind value) (size (_value value)).

(** A program that amounts to one foreign call [f]: it returns what the
    call returns, leaves the state the call leaves, raises nothing, and
    the call is the only one made. *)
Definition one_call {world A : Type} (native : library world) (p : prog A)
    (f : foreign A) (w : world) : Prop :=
  exec native p w = (λ r, (Returns r.1, r.2)) <$> native A f w
  ∧ calls native p w = [(symbol f, argc f)].

(** A parser that stopped and answers with texts the binding cannot
    read, for the worked examples: a message whose C string runs on past
    the length reported, a line of the source "pushi 1", newline, "nopz"
    given as a slice that ends where the source does, and a span that
    stops after the first byte of a two-byte character. *)
Definition garbled_parser {world : Type} : library world :=
  λ R f,
    match f in foreign R return world → option (R * world) with
    | stackvm_parser_parse _ => λ w, Some (0, w)
    | stackvm_parser_get_err_message _ _ =>
        λ w, Some ((Some (String.list_byte_of_string "Unknown instruction NOPZ"), 19), w)
    | stackvm_parser_get_current_line _ _ =>
        λ w, Some ((Some (String.list_byte_of_string "pushi 1" ++ [x0a]
                          ++ String.list_byte_of_string "nopz")%list, 7), w)
    | stackvm_parser_get_source_span _ _ _ _ => λ w, Some ((Some [xc3], 1), w)
    | stackvm_parser_get_position _ =>
        λ w, Some ({| line := 1; column := 0; offset := 8 |}, w)
    | _ => λ _, None
    end.

(** A parser that stopped but gives a null pointer for its message, for
    the worked examples. *)
Definition mute_parser {world : Type} : library world :=
  λ R f,
    match f in foreign R return world → option (R * world) with
    | stackvm_parser_parse _ => λ w, Some (0, w)
    | stackvm_parser_get_err_message _ _ => λ w, Some ((None, 7), w)
    | stackvm_parser_get_position _ =>
        λ w, Some ({| line := 0; column := 0; offset := 0 |}, w)
    | _ => λ _, None
    end.

(** * Properties *)

(** ** Running programs *)

Section RunFacts.
Context {world : Type} (native : library world).

Lemma exec_bind {A B : Type} (p : prog A) (k : A → prog B) (w : world) :
  exec native (p ≫= k) w =
  match exec native p w with
  | Some (Returns a, w') => exec native (k a) w'
  | Some (Raises e, w') => Some (Raises e, w')
  | None => None
  end.
Proof.
  revert w. induction p as [a|e|R f k' IH]; intros w; simpl; try done.
  destruct (native R f w) as [[r w']|]; [apply IH | done].
Qed.

Lemma calls_bind {A B : Type} (p : prog A) (k : A → prog B) (w : world) :
  calls native (p ≫= k) w =
  (calls native p w ++
   match exec native p w with
   | Some (Returns a, w') => calls native (k a) w'
   | _ => []
   end)%list.
Proof.
  revert w. induction p as [a|e|R f k' IH]; intros w; simpl; try done.
  destruct (native R f w) as [[r w']|]; [by rewrite <- IH | done].
Qed.

Lemma exec_lib {R : Type} (f : foreign R) (w : world) :
  exec native (lib f) w = (λ r, (Returns r.1, r.2)) <$> native R f w.
Proof. simpl. by destruct (native R f w) as [[r w']|]. Qed.

Lemma calls_lib {R : Type} (f : foreign R) (w : world) :
  calls native (lib f) w = [(symbol f, argc f)].
Proof. simpl. by destruct (native R f w) as [[r w']|]. Qed.
End RunFacts.

(** ** Integer widths *)

Lemma unsigned_range (n z : Z) : 0 < n → 0 ≤ unsigned n z < 2 ^ n.
Proof. intros Hn. unfold unsigned. apply Z.mod_pos_bound. by apply Z.pow_pos_nonneg; lia. Qed.

Lemma unsigned_small (n z : Z) : 0 ≤ z < 2 ^ n → unsigned n z = z.
Proof. intros Hz. unfold unsigned. by apply Z.mod_small. Qed.

Lemma unsigned_idemp (n z : Z) : 0 < n → unsigned n (unsigned n z) = unsigned n z.
Proof. intros Hn. by apply unsigned_small, unsigned_range. Qed.

Lemma signed_unsigned (n z : Z) : 0 < n → signed n (unsigned n z) = signed n z.
Proof.
  intros Hn. unfold signed, unsigned.
  by rewrite Zplus_mod_idemp_l.
Qed.

Lemma signed_idemp (n z : Z) : 0 < n → signed n (signed n z) = signed n z.
Proof.
  intros Hn. unfold signed.
  replace ((z + 2 ^ (n - 1)) mod 2 ^ n - 2 ^ (n - 1) + 2 ^ (n - 1))
    with ((z + 2 ^ (n - 1)) mod 2 ^ n) by lia.
  by rewrite Z.mod_mod by (apply Z.pow_nonzero; lia).
Qed.

(** ** Value *)

(** C9: reading the [value] property of a Value whose kind byte is NONE
    does not raise: it yields the raw size_t payload field, as it does for
    the four Address kinds and for any other kind byte; only the Integer
    and Float kinds select their dedicated fields. *)
Theorem Value_value_of_NONE (u : ValueUnion) :
  Value_value {| kind := NONE; _value := u |} = PyInt (size u)
  ∧ (∀ t : ValueType,
       Value_value {| kind := t; _value := u |} =
       match t with
       | INTEGER => PyInt (integer u)
       | FLOAT => PyFloat (float u)
       | _ => PyInt (size u)
       end)
  ∧ (∀ k : Z,
       Value_value {| kind := k; _value := u |} =
       if decide (k = INTEGER) then PyInt (integer u)
       else if decide (k = FLOAT) then PyFloat (float u)
       else PyInt (size u)).
Proof.
  split; [done|]. split; [by intros []|].
  intros k. unfold Value_value, ValueType_int; cbn [kind _value].
  destruct (Z.eqb_spec 1 k) as [<-|]; [done|].
  destruct (Z.eqb_spec 2 k) as [<-|]; [done|].
  by rewrite !decide_False by done.
Qed.

(** C1: [Value.init] with the NONE kind raises for every payload, before
    any foreign call is made and so without returning a Value; with any
    other kind it returns the Value built by that kind's constructor from
    the payload. *)
Theorem Value_init_rejects_NONE `{PythonRuntime} {world : Type} (native : library world) :
  (∀ payload w,
     exec native (Value_init NONE payload) w
       = Some (Raises (Exception (PyStr "Cannot create value of type NONE")), w)
     ∧ calls native (Value_init NONE payload) w = [])
  ∧ (∀ (type : ValueType) payload f w v w',
       type ≠ NONE →
       constructor type payload = Some f →
       native Value f w = Some (v, w') →
       exec native (Value_init type payload) w = Some (Returns v, w')).
Proof.
  split; [done|].
  intros type payload f w v w' Htype Hf Hnative.
  destruct type, payload; simpl in Hf; try done; simplify_eq; unfold Value_init; simpl;
    try (by rewrite Hnative).
  - destruct (float_of_int z) as [d|] eqn:Hd; simplify_eq/=. by rewrite Hnative.
  - rewrite (unsigned_small 8) by lia. by rewrite Hnative.
  - rewrite (unsigned_small 8) by lia. by rewrite Hnative.
  - rewrite (unsigned_small 8) by lia. by rewrite Hnative.
  - rewrite (unsigned_small 8) by lia. by rewrite Hnative.
Qed.

Lemma Value_init_rejects_NONE_witness :
  INTEGER ≠ NONE
  ∧ constructor (H := ascii_runtime) INTEGER (PyInt 5) = Some (stackvm_value_int 5)
  ∧ exec (Native.model (H := sample_set) 0 no_rest)
         (Value_init (H := ascii_runtime) INTEGER (PyInt 5)) (sample_world [] [])
    = Some (Returns {| kind := INTEGER; _value := {| storage := 5 |} |}, sample_world [] []).
Proof.
  split; [done|]. split; [done|].
  by apply (proj2 (Value_init_rejects_NONE (H := ascii_runtime) _)
              INTEGER (PyInt 5) (stackvm_value_int 5)).
Defined.

Lemma Value_value_INTEGER (v : Value) :
  kind v = INTEGER → Value_value v = PyInt (integer (_value v)).
Proof. intros Hk. unfold Value_value. by rewrite Hk. Qed.

Lemma Value_value_FLOAT (v : Value) :
  kind v = FLOAT → Value_value v = PyFloat (float (_value v)).
Proof. intros Hk. unfold Value_value. by rewrite Hk. Qed.

Lemma Value_value_size (v : Value) :
  kind v ≠ INTEGER → kind v ≠ FLOAT → Value_value v = PyInt (size (_value v)).
Proof.
  intros Hi Hf. unfold Value_value.
  by rewrite (proj2 (Z.eqb_neq INTEGER (kind v))), (proj2 (Z.eqb_neq FLOAT (kind v))).
Qed.

(** ** Stack.store *)

Section Store.
Context `{PythonRuntime} {world : Type} (native : library world).

Lemma Stack_namespace_store :
  class_namespace Stack_body !! "store" = Some (Method_store Stack_store_by_kind).
Proof. reflexivity. Qed.

Lemma Stack_store_by_kind_calls (self : Stack) (index : Z) (value : Value) (w : world) :
  calls native (Stack_store_by_kind self index value) w = [store_entry_point (kind value)].
Proof.
  unfold Stack_store_by_kind, store_entry_point, Value_value, ValueType_int.
  destruct (Z.eqb_spec (kind value) 1) as [->|Hi].
  { rewrite decide_True by done. cbn. by destruct (native _ _ _) as [[]|]. }
  rewrite (decide_False (P := kind value = 1)) by done.
  destruct (Z.eqb_spec (kind value) 2) as [->|Hf].
  { rewrite decide_True by done. cbn. by destruct (native _ _ _) as [[]|]. }
  rewrite (decide_False (P := kind value = 2)) by done.
  rewrite (proj2 (Z.eqb_neq 1 (kind value))), (proj2 (Z.eqb_neq 2 (kind value))) by done.
  cbn. by destruct (native _ _ _) as [[]|].
Qed.

Lemma Stack_namespace_methods (name : string) (meth : method) :
  class_namespace Stack_body !! name = Some meth →
  meth = Method_len Stack_len ∨ meth = Method_load Stack_load
  ∨ meth = Method_store Stack_store_by_kind
  ∨ meth = Method_push Stack_push ∨ meth = Method_pop Stack_pop.
Proof.
  unfold class_namespace, Stack_body; simpl. intros Hm.
  repeat (apply lookup_insert_Some in Hm as [[? <-]|[? Hm]]; [tauto || done|]).
  by rewrite lookup_empty in Hm.
Qed.
End Store.

(** A name that is none of the symbols in a list of calls. *)
Ltac not_called :=
  cbn; repeat (apply not_elem_of_cons; split; [done|]); apply not_elem_of_nil.

(** C8: the class body defines [store] twice and the namespace keeps the
    second definition, so [store(index, value)] goes to the entry point of
    the value's kind (Integer to [stackvm_stack_store_int], Float to
    [stackvm_stack_store_float], every other kind byte, NONE included, to
    [stackvm_stack_store_address]) and no method of the class calls the
    generic [stackvm_stack_store]. *)
Theorem Stack_store_dispatches_on_kind `{PythonRuntime} {world : Type} (native : library world) :
  class_namespace Stack_body !! "store" = Some (Method_store Stack_store_by_kind)
  ∧ (∀ self index value w,
       calls native (Stack_store self index value) w = [store_entry_point (kind value)]
       ∧ store_entry_point (kind value) =
           (if decide (kind value = INTEGER) then ("stackvm_stack_store_int", 3%nat)
            else if decide (kind value = FLOAT) then ("stackvm_stack_store_float", 3%nat)
            else ("stackvm_stack_store_address", 4%nat))
       ∧ store_entry_point NONE = ("stackvm_stack_store_address", 4%nat))
  ∧ map_Forall (λ _ meth, ∀ self index value w,
       "stackvm_stack_store" ∉ (method_calls native meth self index value w).*1)
      (class_namespace Stack_body).
Proof.
  split; [apply Stack_namespace_store|]. split.
  - intros self index value w. split; [|done].
    unfold Stack_store. rewrite Stack_namespace_store.
    apply Stack_store_by_kind_calls.
  - intros name meth Hm self index value w.
    destruct (Stack_namespace_methods name meth Hm) as [->|[->|[->|[->| ->]]]];
      unfold method_calls.
    + unfold Stack_len. rewrite calls_lib. not_called.
    + unfold Stack_load. rewrite calls_lib. not_called.
    + rewrite Stack_store_by_kind_calls. unfold store_entry_point.
      repeat case_decide; not_called.
    + unfold Stack_push.
      destruct (Z.eqb_spec (kind value) INTEGER) as [Hi|Hi].
      { rewrite Value_value_INTEGER by done. cbn.
        destruct (native _ _ _) as [[]|]; not_called. }
      destruct (Z.eqb_spec (kind value) FLOAT) as [Hf|Hf].
      { rewrite Value_value_FLOAT by done. cbn.
        destruct (native _ _ _) as [[]|]; not_called. }
      rewrite Value_value_size by done. cbn.
      destruct (native _ _ _) as [[]|]; not_called.
    + unfold Stack_pop. rewrite calls_lib. not_called.
Qed.

(** ** Call sites against declarations *)

(** Every call the binding makes to a declared function passes as many
    arguments as the declaration lists, [stackvm_init] apart;
    [stackvm_stack_store] has no declaration at all. *)
Lemma call_sites_match_declarations {R : Type} (f : foreign R) :
  symbol f ≠ "stackvm_init" →
  symbol f ≠ "stackvm_stack_store" →
  length <$> argtypes (symbol f) = Some (argc f).
Proof. destruct f; intros Hinit Hstore; first [done | by vm_compute]. Qed.

Lemma stackvm_stack_store_undeclared : argtypes "stackvm_stack_store" = None.
Proof. by vm_compute. Qed.

(** C10: [VirtualMachine.init(r)] calls [stackvm_init] with two arguments,
    the global allocator and the reader's pointer, while the declaration
    of [stackvm_init] lists one parameter: the argument count of the call
    site is not that of the declared argtypes. *)
Theorem VirtualMachine_init_call_arity
    {world : Type} (native : library world) (global_allocator : Z) (reader : Reader) (w : world) :
  calls native (VirtualMachine_init global_allocator reader) w = [("stackvm_init", 2%nat)]
  ∧ argtypes "stackvm_init" = Some [c_void_p]
  ∧ length <$> argtypes "stackvm_init" = Some 1%nat.
Proof.
  split; [|split; by vm_compute].
  unfold VirtualMachine_init. cbn. by destruct (native _ _ _) as [[]|].
Qed.

(** ** Diagnostic text *)

Lemma c_string_padded (bs : list byte) (n : nat) :
  c_string (bs ++ replicate n x00) = c_string bs.
Proof.
  induction bs as [|b bs IH]; simpl.
  - by destruct n.
  - destruct (Byte.eqb b x00); [done | by rewrite IH].
Qed.

Section Text.
Context `{PythonRuntime} {world : Type} (native : library world).

Lemma exec_text_result_zero (err_ptr : option (list byte)) (err_len : Z) (w : world) :
  err_len ≤ 0 → exec native (text_result err_ptr err_len) w = Some (Returns None, w).
Proof. intros Hn. unfold text_result. by rewrite (proj2 (Z.ltb_ge 0 err_len)). Qed.

(** Reading a text of positive length: each way the buffer can fail, and
    the decoding of what fits. *)
Lemma exec_text_result_positive (err_ptr : option (list byte)) (err_len : Z) (w : world) :
  0 < err_len →
  exec native (text_result err_ptr err_len) w =
  Some (match err_ptr with
        | None => Raises TypeError
        | Some bs =>
            if decide (2 ^ 63 ≤ err_len) then Raises OverflowError
            else if negb (can_allocate err_len) then Raises MemoryError
            else if decide (err_len < Z.of_nat (length bs)) then Raises ValueError
            else match bytes_decode (c_string bs) with
                 | Some s => Returns (Some s)
                 | None => Raises UnicodeDecodeError
                 end
        end, w).
Proof.
  intros Hn. unfold text_result, create_string_buffer.
  rewrite (proj2 (Z.ltb_lt 0 err_len)) by done.
  destruct err_ptr as [bs|]; [|done].
  destruct (Z.leb_spec (2 ^ 63) err_len) as [Hbig|Hbig].
  { by rewrite decide_True. }
  rewrite decide_False, (proj2 (Z.ltb_ge err_len 0)) by lia.
  destruct (can_allocate err_len); [|done]. cbn [negb].
  destruct (Z.ltb_spec err_len (Z.of_nat (length bs))) as [Hl|Hl].
  { by rewrite decide_True. }
  rewrite decide_False by lia. cbn. unfold value_decode.
  rewrite c_string_padded. by destruct (bytes_decode (c_string bs)).
Qed.




Lemma calls_text_result (err_ptr : option (list byte)) (err_len : Z) (w : world) :
  calls native (text_result err_ptr err_len) w = [].
Proof.
  unfold text_result, create_string_buffer, value_decode.
  repeat (case_match; cbn); done.
Qed.
End Text.




(** ** Parser.parse *)




(** ** The stack of a machine *)

Lemma export_native_of (v : Value) :
  constructed v →
  kind (Native.export (native_of v)) = kind v
  ∧ Value_value (Native.export (native_of v)) = Value_value v.
Proof.
  intros (t & Ht & Hk). unfold native_of. rewrite Hk.
  destruct t; try done; cbn [ValueType_int Z.eqb Pos.eqb Native.export kind].
  - split; [done|]. rewrite (Value_value_INTEGER v) by done.
    unfold Value_value, integer; cbn.
    by rewrite signed_unsigned, signed_idemp.
  - split; [done|]. rewrite (Value_value_FLOAT v) by done.
    unfold Value_value, float; cbn. by rewrite !unsigned_idemp.
  - split; [done|]. rewrite (Value_value_size v) by (rewrite Hk; done).
    unfold Value_value, size; cbn. by rewrite !unsigned_idemp.
  - split; [done|]. rewrite (Value_value_size v) by (rewrite Hk; done).
    unfold Value_value, size; cbn. by rewrite !unsigned_idemp.
  - split; [done|]. rewrite (Value_value_size v) by (rewrite Hk; done).
    unfold Value_value, size; cbn. by rewrite !unsigned_idemp.
  - split; [done|]. rewrite (Value_value_size v) by (rewrite Hk; done).
    unfold Value_value, size; cbn. by rewrite !unsigned_idemp.
Qed.

(** What [Value.init] returns, when the native constructors are those of
    the specification, is a constructed Value of the kind asked for. *)
Lemma Value_init_constructed `{PythonRuntime} `{Native.InstructionSet}
    (steps : nat) (rest : library Native.world)
    (type : ValueType) (payload : pyval) (v : Value) (w w' : Native.world) :
  exec (Native.model steps rest) (Value_init type payload) w = Some (Returns v, w') →
  constructed v ∧ kind v = type.
Proof.
  unfold Value_init.
  destruct type; cbn [ValueType_int Z.eqb Pos.eqb]; try done;
    destruct payload as [|z|d|s]; try done; cbn.
  1: intros [= <- _]; split; [by exists INTEGER | done].
  1: destruct (float_of_int z); [|done]; cbn.
  1-2: intros [= <- _]; split; [by exists FLOAT | done].
  - intros [= <- _]; split; [by exists ADDRESS_HEAP | done].
  - intros [= <- _]; split; [by exists ADDRESS_STRING | done].
  - intros [= <- _]; split; [by exists ADDRESS_CODE | done].
  - intros [= <- _]; split; [by exists ADDRESS_STACK | done].
Qed.

Section StackFacts.
Context `{PythonRuntime} `{Native.InstructionSet}.
Context (steps : nat) (rest : library Native.world).

Local Abbreviation native := (Native.model steps rest).

Lemma set_machine_same (m : Z) (st : Native.machine) (w : Native.world) :
  Native.machines w !! m = Some st → Native.set_machine m st w = w.
Proof.
  intros Hm. destruct w as [rs ms]. unfold Native.set_machine; simpl in *.
  by rewrite insert_id.
Qed.

Lemma set_machine_lookup (m : Z) (st : Native.machine) (w : Native.world) :
  Native.machines (Native.set_machine m st w) !! m = Some st.
Proof. apply lookup_insert_eq. Qed.

Lemma set_machine_twice (m : Z) (st st' : Native.machine) (w : Native.world) :
  Native.set_machine m st' (Native.set_machine m st w) = Native.set_machine m st' w.
Proof. unfold Native.set_machine; simpl. by rewrite insert_insert_eq. Qed.

Lemma with_stack_same (st : Native.machine) :
  Native.with_stack (Native.stack st) st = st.
Proof. by destruct st. Qed.

Lemma with_stack_twice (s s' : list Native.value) (st : Native.machine) :
  Native.with_stack s' (Native.with_stack s st) = Native.with_stack s' st.
Proof. done. Qed.

Lemma exec_Stack_len (m : Z) (st : Native.machine) (w : Native.world) :
  Native.machines w !! m = Some st →
  exec native (Stack_len {| vm := {| ptr := m |} |}) w
  = Some (Returns (Z.of_nat (length (Native.stack st))), w).
Proof.
  intros Hm. unfold Stack_len. rewrite exec_lib. cbn. unfold Native.query.
  by rewrite Hm.
Qed.

(** What the marshalling of [push] and [store] hands to the entry point
    of the value's kind is the native Value the structure stands for. *)
Lemma exec_Stack_push (m : Z) (st : Native.machine) (w : Native.world) (v : Value) :
  Native.machines w !! m = Some st →
  constructed v →
  exec native (Stack_push {| vm := {| ptr := m |} |} v) w
  = Some (Returns (), Native.set_machine m (Native.stack_push (native_of v) st) w).
Proof.
  intros Hm (t & Ht & Hk). unfold Stack_push, native_of. rewrite Hk.
  destruct t; try done; cbn [ValueType_int Z.eqb Pos.eqb].
  - rewrite (Value_value_INTEGER v) by done. cbn. unfold Native.update.
    rewrite Hm. cbn. unfold integer. by rewrite signed_idemp.
  - rewrite (Value_value_FLOAT v) by done. cbn. unfold Native.update.
    by rewrite Hm.
  - rewrite (Value_value_size v) by (rewrite Hk; done). cbn. unfold Native.update.
    rewrite Hm. cbn. unfold size. by rewrite unsigned_idemp.
  - rewrite (Value_value_size v) by (rewrite Hk; done). cbn. unfold Native.update.
    rewrite Hm. cbn. unfold size. by rewrite unsigned_idemp.
  - rewrite (Value_value_size v) by (rewrite Hk; done). cbn. unfold Native.update.
    rewrite Hm. cbn. unfold size. by rewrite unsigned_idemp.
  - rewrite (Value_value_size v) by (rewrite Hk; done). cbn. unfold Native.update.
    rewrite Hm. cbn. unfold size. by rewrite unsigned_idemp.
Qed.

Lemma exec_Stack_pop (m : Z) (st : Native.machine) (w : Native.world)
    (s : list Native.value) (x : Native.value) :
  Native.machines w !! m = Some st →
  Native.stack st = (s ++ [x])%list →
  exec native (Stack_pop {| vm := {| ptr := m |} |}) w
  = Some (Returns (Native.export x), Native.set_machine m (Native.with_stack s st) w).
Proof.
  intros Hm Hs. unfold Stack_pop. rewrite exec_lib. cbn. unfold Native.update.
  rewrite Hm. cbn. unfold Native.stack_pop. rewrite Hs, last_snoc. cbn.
  by rewrite removelast_last.
Qed.

Local Arguments Native.stack_store : simpl never.

Lemma exec_Stack_store (m : Z) (st : Native.machine) (w : Native.world) (i : Z) (v : Value) :
  Native.machines w !! m = Some st →
  0 ≤ i < Z.of_nat (length (Native.stack st)) →
  i < 2 ^ 64 →
  constructed v →
  exec native (Stack_store {| vm := {| ptr := m |} |} i v) w
  = Some (Returns (),
          Native.set_machine m
            (Native.with_stack (<[Z.to_nat i := native_of v]> (Native.stack st)) st) w).
Proof.
  intros Hm Hi Hsize (t & Ht & Hk).
  assert (Hstore : ∀ x, Native.stack_store i x st
                        = Some (Native.with_stack (<[Z.to_nat i := x]> (Native.stack st)) st)).
  { intros x. unfold Native.stack_store.
    by rewrite (proj2 (Z.leb_le 0 i)), (proj2 (Z.ltb_lt _ _)) by lia. }
  unfold Stack_store. rewrite Stack_namespace_store.
  unfold Stack_store_by_kind, native_of. rewrite Hk.
  destruct t; try done; cbn [ValueType_int Z.eqb Pos.eqb].
  - rewrite (Value_value_INTEGER v) by done. cbn. unfold Native.update.
    rewrite Hm. cbn. rewrite unsigned_small by lia. unfold integer.
    by rewrite signed_idemp, Hstore.
  - rewrite (Value_value_FLOAT v) by done. cbn. unfold Native.update.
    rewrite Hm. cbn. rewrite unsigned_small by lia. by rewrite Hstore.
  - rewrite (Value_value_size v) by (rewrite Hk; done). cbn. unfold Native.update.
    rewrite Hm. cbn. rewrite (unsigned_small _ i), (unsigned_small 8) by lia.
    unfold size. rewrite unsigned_idemp by done. cbn. by rewrite Hstore.
  - rewrite (Value_value_size v) by (rewrite Hk; done). cbn. unfold Native.update.
    rewrite Hm. cbn. rewrite (unsigned_small _ i), (unsigned_small 8) by lia.
    unfold size. rewrite unsigned_idemp by done. cbn. by rewrite Hstore.
  - rewrite (Value_value_size v) by (rewrite Hk; done). cbn. unfold Native.update.
    rewrite Hm. cbn. rewrite (unsigned_small _ i), (unsigned_small 8) by lia.
    unfold size. rewrite unsigned_idemp by done. cbn. by rewrite Hstore.
  - rewrite (Value_value_size v) by (rewrite Hk; done). cbn. unfold Native.update.
    rewrite Hm. cbn. rewrite (unsigned_small _ i), (unsigned_small 8) by lia.
    unfold size. rewrite unsigned_idemp by done. cbn. by rewrite Hstore.
Qed.

Lemma exec_Stack_load (m : Z) (st : Native.machine) (w : Native.world) (i : Z)
    (x : Native.value) :
  Native.machines w !! m = Some st →
  0 ≤ i < 2 ^ 64 →
  Native.stack st !! Z.to_nat i = Some x →
  exec native (Stack_load {| vm := {| ptr := m |} |} i) w
  = Some (Returns (Native.export x), w).
Proof.
  intros Hm Hi Hx. unfold Stack_load. rewrite exec_lib. cbn.
  rewrite Hm. cbn. unfold Native.stack_load.
  rewrite unsigned_small by done.
  by rewrite (proj2 (Z.leb_le 0 i)), Hx by lia.
Qed.
End StackFacts.

Section StackRoundTrips.
Context `{PythonRuntime} `{Native.InstructionSet}.
Context (steps : nat) (rest : library Native.world).

Local Abbreviation native := (Native.model steps rest).

(** C4: for any Value [v], [push(v)] followed by [pop()] on the stack of a
    machine returns a Value equal to [v] in kind tag and in payload, and
    the length of the stack after the pop is its length before the push. *)
Theorem push_then_pop_returns_the_value
    (m : Z) (st : Native.machine) (w : Native.world) (v : Value) :
  Native.machines w !! m = Some st →
  constructed v →
  ∃ (n : Z) (popped : Value),
    exec native (push_then_pop {| vm := {| ptr := m |} |} v) w
      = Some (Returns (n, popped, n), w)
    ∧ n = Z.of_nat (length (Native.stack st))
    ∧ kind popped = kind v
    ∧ Value_value popped = Value_value v.
Proof.
  intros Hm Hv.
  exists (Z.of_nat (length (Native.stack st))), (Native.export (native_of v)).
  split; [|split; [done | by apply export_native_of]].
  unfold push_then_pop.
  rewrite exec_bind, (exec_Stack_len _ _ m st) by done.
  rewrite exec_bind, (exec_Stack_push _ _ m st) by done.
  rewrite exec_bind,
    (exec_Stack_pop _ _ m _ _ (Native.stack st) (native_of v)) by (apply set_machine_lookup || done).
  unfold Native.stack_push.
  rewrite with_stack_twice, with_stack_same, set_machine_twice, set_machine_same by done.
  by rewrite exec_bind, (exec_Stack_len _ _ m st) by done.
Qed.

(** C5: for any index [i < length()] and any Value [v], [store(i, v)]
    followed by [load(i)] returns [v] unchanged, in payload and in kind
    tag: a stored AddressHeap value is not read back as an AddressStack,
    AddressString or AddressCode value, and likewise for every kind. *)
Theorem store_then_load_returns_the_value
    (m : Z) (st : Native.machine) (w : Native.world) (i : Z) (v : Value) :
  Native.machines w !! m = Some st →
  Z.of_nat (length (Native.stack st)) ≤ 2 ^ 64 →
  0 ≤ i < Z.of_nat (length (Native.stack st)) →
  constructed v →
  ∃ (loaded : Value) (w' : Native.world),
    exec native (store_then_load {| vm := {| ptr := m |} |} i v) w
      = Some (Returns loaded, w')
    ∧ Value_value loaded = Value_value v
    ∧ kind loaded = kind v
    ∧ (kind v = ADDRESS_HEAP →
       kind loaded ≠ ADDRESS_STACK ∧ kind loaded ≠ ADDRESS_STRING
       ∧ kind loaded ≠ ADDRESS_CODE).
Proof.
  intros Hm Hlen Hi Hv.
  destruct (export_native_of v Hv) as [Hkind Hpayload].
  eexists (Native.export (native_of v)), _. split; [|split; [done|split; [done|]]].
  - unfold store_then_load.
    rewrite exec_bind, (exec_Stack_store _ _ m st) by (done || lia).
    eapply exec_Stack_load; [apply set_machine_lookup | lia |].
    cbn. apply list_lookup_insert_eq. lia.
  - rewrite Hkind. intros ->. done.
Qed.
End StackRoundTrips.

(** ** The span tree *)

Lemma keys_in_impl (P Q : Z → Prop) (t : rbnode) :
  keys_in P t → (∀ k, P k → Q k) → keys_in Q t.
Proof. induction t; simpl; [done|]. intros (? & ? & ?) HPQ. auto. Qed.

(** Close a goal about the indices of a subtree from what is known of a
    tree containing it. *)
Ltac keys :=
  match goal with
  | |- keys_in _ Leaf => exact I
  | H : keys_in _ ?t |- keys_in _ ?t =>
      apply (keys_in_impl _ _ _ H); cbn beta; intros; lia
  end.

Ltac tree_facts :=
  cbn [keys_in ordered] in *;
  repeat match goal with
         | H : _ ∧ _ |- _ => destruct H
         end.

Lemma keys_in_balance (P : Z → Prop) (c : color) (l : rbnode) (s : InstructionSpan) (r : rbnode) :
  keys_in P l → P (instruction s) → keys_in P r → keys_in P (Native.balance c l s r).
Proof.
  intros Hl Hs Hr. unfold Native.balance.
  repeat case_match; subst; tree_facts; cbn [keys_in]; tauto.
Qed.

Lemma ordered_balance (c : color) (l : rbnode) (s : InstructionSpan) (r : rbnode) :
  ordered l → ordered r →
  keys_in (λ k, k < instruction s) l →
  keys_in (λ k, instruction s < k) r →
  ordered (Native.balance c l s r).
Proof.
  intros Hl Hr Hls Hsr. unfold Native.balance.
  repeat case_match; subst; tree_facts; cbn [keys_in ordered];
    repeat split; first [assumption | lia | keys].
Qed.

Lemma lookup_balance (i : Z) (c : color) (l : rbnode) (s : InstructionSpan) (r : rbnode) :
  ordered l → ordered r →
  keys_in (λ k, k < instruction s) l →
  keys_in (λ k, instruction s < k) r →
  Native.lookup i (Native.balance c l s r) = Native.lookup i (Node c l s r).
Proof.
  intros Hl Hr Hls Hsr. unfold Native.balance.
  repeat case_match; subst; try done; tree_facts; cbn [Native.lookup];
    repeat match goal with
           | |- context [?a <? ?b] => destruct (Z.ltb_spec a b)
           end; first [done | lia].
Qed.

Lemma keys_in_ins (P : Z → Prop) (s : InstructionSpan) (t : rbnode) :
  keys_in P t → P (instruction s) → keys_in P (Native.ins s t).
Proof.
  intros Ht Hs. induction t as [|c l IHl s' r IHr]; simpl; [done|].
  destruct Ht as (Hl & Hs' & Hr).
  repeat case_match; [apply keys_in_balance | apply keys_in_balance | simpl]; auto.
Qed.

Lemma ordered_ins (s : InstructionSpan) (t : rbnode) :
  ordered t → ordered (Native.ins s t).
Proof.
  induction t as [|c l IHl s' r IHr]; simpl; [done|].
  intros (Hl & Hr & Hls & Hsr).
  destruct (Z.ltb_spec (instruction s) (instruction s')) as [Hlt|Hge].
  { apply ordered_balance; auto. by apply keys_in_ins. }
  destruct (Z.ltb_spec (instruction s') (instruction s)) as [Hgt|Hle].
  { apply ordered_balance; auto. by apply keys_in_ins. }
  assert (instruction s = instruction s') as Heq by lia.
  simpl. rewrite Heq. auto.
Qed.

Lemma lookup_ins (i : Z) (s : InstructionSpan) (t : rbnode) :
  ordered t →
  Native.lookup i (Native.ins s t)
  = if decide (i = instruction s) then Some s else Native.lookup i t.
Proof.
  induction t as [|c l IHl s' r IHr]; simpl.
  - intros _. destruct (Z.ltb_spec i (instruction s)), (Z.ltb_spec (instruction s) i);
      case_decide; first [done | lia].
  - intros (Hl & Hr & Hls & Hsr).
    destruct (Z.ltb_spec (instruction s) (instruction s')) as [Hlt|Hge].
    { rewrite lookup_balance by (auto using ordered_ins, keys_in_ins).
      simpl. rewrite IHl by done.
      destruct (Z.ltb_spec i (instruction s')), (Z.ltb_spec (instruction s') i);
        case_decide; first [done | lia]. }
    destruct (Z.ltb_spec (instruction s') (instruction s)) as [Hgt|Hle].
    { rewrite lookup_balance by (auto using ordered_ins, keys_in_ins).
      simpl. rewrite IHr by done.
      destruct (Z.ltb_spec i (instruction s')), (Z.ltb_spec (instruction s') i);
        case_decide; first [done | lia]. }
    assert (instruction s = instruction s') as Heq by lia.
    simpl. rewrite <- Heq.
    destruct (Z.ltb_spec i (instruction s)), (Z.ltb_spec (instruction s) i);
      case_decide; first [done | lia].
Qed.

Lemma lookup_blacken (i : Z) (t : rbnode) :
  Native.lookup i (Native.blacken t) = Native.lookup i t.
Proof. by destruct t. Qed.

Lemma ordered_blacken (t : rbnode) : ordered t → ordered (Native.blacken t).
Proof. by destruct t. Qed.

(** What the parser has recorded after compiling the listed ranges: the
    counter is the number of instructions, and the tree holds, under each
    index produced, the span of that instruction. *)
Lemma compiled_map (a : Z) (ranges : list (TextPosition * TextPosition)) :
  let tree := root (instructions_positions (Native.compiled a ranges)) in
  current_instruction (Native.compiled a ranges) = Z.of_nat (length ranges)
  ∧ ordered tree
  ∧ ∀ i, Native.lookup i tree
         = if decide (0 ≤ i) then span_of i <$> ranges !! Z.to_nat i else None.
Proof.
  unfold Native.compiled.
  induction ranges as [|range ranges IH] using rev_ind; simpl.
  - repeat split. intros i. by case_decide.
  - rewrite foldl_app. simpl in *. destruct IH as (Hc & Ho & Hl).
    rewrite length_app; simpl. split; [lia|]. split.
    { apply ordered_blacken, ordered_ins, Ho. }
    intros i. rewrite lookup_blacken, lookup_ins, Hl, Hc by done. simpl.
    destruct (decide (i = Z.of_nat (length ranges))) as [->|Hi].
    + rewrite decide_True, Nat2Z.id by lia.
      by rewrite lookup_app_r, Nat.sub_diag by lia.
    + case_decide; [|done].
      destruct (decide (Z.to_nat i < length ranges)%nat).
      * by rewrite lookup_app_l by done.
      * by rewrite !lookup_ge_None_2 by (rewrite ?length_app; simpl; lia).
Qed.

(** ** SourceMap.find *)

Lemma exec_SourceMap_find `{Native.InstructionSet} (steps : nat) (rest : library Native.world)
    (self : SourceMap) (i : Z) (w : Native.world) :
  0 ≤ i < 2 ^ 64 →
  exec (Native.model steps rest) (SourceMap_find self i) w
  = Some (Returns (Native.lookup i (root (instructions_positions self))), w).
Proof.
  intros Hi. unfold SourceMap_find, InstructionSpan_init, TextPosition_init.
  cbn. rewrite (unsigned_small 64 i) by done. unfold Native.sourcemap_find.
  by destruct (Native.lookup i _).
Qed.

(** C6: for every instruction index produced during a successful parse,
    [SourceMap.find(index)] returns an InstructionSpan whose [instruction]
    field is that index (and whose range is the one the instruction was
    compiled from); for every index at which no span was recorded it
    returns [None]. *)
Theorem SourceMap_find_returns_recorded_span
    `{Native.InstructionSet} (steps : nat) (rest : library Native.world)
    (a : Z) (ranges : list (TextPosition * TextPosition)) (i : Z) (w : Native.world) :
  0 ≤ i < 2 ^ 64 →
  let found := exec (Native.model steps rest) (SourceMap_find (Native.compiled a ranges) i) w in
  (i < Z.of_nat (length ranges) →
   ∃ span : InstructionSpan,
     found = Some (Returns (Some span), w)
     ∧ instruction span = i
     ∧ ranges !! Z.to_nat i = Some (start span, end_ span))
  ∧ (Z.of_nat (length ranges) ≤ i → found = Some (Returns None, w)).
Proof.
  intros Hi found. subst found. rewrite exec_SourceMap_find by done.
  destruct (compiled_map a ranges) as (_ & _ & Hlookup). rewrite Hlookup.
  rewrite decide_True by lia. split.
  - intros Hlt.
    destruct (lookup_lt_is_Some_2 ranges (Z.to_nat i)) as [[s e] Hr]; [lia|].
    exists (span_of i (s, e)). by rewrite Hr.
  - intros Hge. by rewrite lookup_ge_None_2 by lia.
Qed.

(** ** VirtualMachine.execute *)

Section MachineFacts.
Context `{PythonRuntime} `{Native.InstructionSet}.




(** Allowing more steps does not change the result of a run that ends. *)
Lemma run_more_steps (steps extra : nat) (st : Native.machine) (r : bool * Native.machine) :
  Native.run steps st = Some r → Native.run (steps + extra) st = Some r.
Proof.
  revert st. induction steps as [|steps IH]; intros st; simpl; [done|].
  destruct (Native.fetch st) as [i|]; [|done].
  destruct (Native.perform i _ _); auto.
Qed.

Context (steps : nat) (rest : library Native.world).

Local Abbreviation native := (Native.model steps rest).

Lemma exec_VirtualMachine_execute (m : Z) (st : Native.machine) (w : Native.world) :
  Native.machines w !! m = Some st →
  Native.run steps st = None →
  exec native (VirtualMachine_execute {| ptr := m |}) w = None.
Proof.
  intros Hm Hrun. unfold VirtualMachine_execute.
  rewrite exec_bind, exec_lib. cbn [Native.model ptr]. unfold Native.update.
  by rewrite Hm; cbn; rewrite Hrun.
Qed.


Lemma exec_VirtualMachine_err_message_state (m : Z) (st : Native.machine)
    (w w' : Native.world) (o : outcome (option string)) :
  Native.machines w !! m = Some st →
  exec native (VirtualMachine_err_message {| ptr := m |}) w = Some (o, w') → w' = w.
Proof.
  intros Hm. unfold VirtualMachine_err_message.
  rewrite exec_bind, exec_lib. cbn. unfold Native.query. rewrite Hm. cbn.
  destruct (Z.lt_ge_cases 0 (Z.of_nat (length (Native.err_message st)))) as [Hn|Hn].
  - rewrite exec_text_result_positive by done. by intros [= _ <-].
  - rewrite exec_text_result_zero by done. by intros [= _ <-].
Qed.


End MachineFacts.

(** ** Worked examples *)



Lemma push_then_pop_returns_the_value_witness :
  let native := Native.model (H := sample_set) 0 no_rest in
  let w := sample_world [] [Native.VInteger 7] in
  let v := {| kind := ADDRESS_HEAP; _value := {| storage := 9 |} |} in
  Native.machines w !! 32
    = Some (@Native.Build_machine sample_set [] zero_registers [Native.VInteger 7] 0 [])
  ∧ constructed v
  ∧ ∃ (n : Z) (popped : Value),
      exec native (push_then_pop (H := ascii_runtime) {| vm := {| ptr := 32 |} |} v) w
        = Some (Returns (n, popped, n), w)
      ∧ n = 1
      ∧ kind popped = kind v
      ∧ Value_value popped = Value_value v.
Proof.
  intros native w v.
  assert (Hv : constructed v) by (by exists ADDRESS_HEAP).
  split; [reflexivity|]. split; [exact Hv|].
  exact (push_then_pop_returns_the_value (H := ascii_runtime) (H0 := sample_set)
           0 no_rest 32 _ w v eq_refl Hv).
Defined.

Lemma store_then_load_returns_the_value_witness :
  let native := Native.model (H := sample_set) 0 no_rest in
  let w := sample_world [] [Native.VInteger 7; Native.VAddressStack 0] in
  let v := {| kind := ADDRESS_HEAP; _value := {| storage := 9 |} |} in
  Native.machines w !! 32
    = Some (@Native.Build_machine sample_set [] zero_registers
              [Native.VInteger 7; Native.VAddressStack 0] 0 [])
  ∧ 2 ≤ 2 ^ 64
  ∧ 0 ≤ 1 < 2
  ∧ constructed v
  ∧ ∃ (loaded : Value) (w' : Native.world),
      exec native (store_then_load (H := ascii_runtime) {| vm := {| ptr := 32 |} |} 1 v) w
        = Some (Returns loaded, w')
      ∧ Value_value loaded = Value_value v
      ∧ kind loaded = kind v
      ∧ (kind v = ADDRESS_HEAP →
         kind loaded ≠ ADDRESS_STACK ∧ kind loaded ≠ ADDRESS_STRING
         ∧ kind loaded ≠ ADDRESS_CODE).
Proof.
  intros native w v.
  assert (Hv : constructed v) by (by exists ADDRESS_HEAP).
  split; [reflexivity|]. split; [lia|]. split; [lia|]. split; [exact Hv|].
  exact (store_then_load_returns_the_value (H := ascii_runtime) (H0 := sample_set)
           0 no_rest 32 _ w 1 v eq_refl ltac:(simpl; lia) ltac:(simpl; lia) Hv).
Defined.

Lemma SourceMap_find_returns_recorded_span_witness :
  let native := Native.model (H := sample_set) 0 no_rest in
  let w := sample_world [] [] in
  let at_ l c o := {| line := l; column := c; offset := o |} in
  let ranges := [(at_ 0 0 0, at_ 0 7 7); (at_ 1 0 8, at_ 1 7 15); (at_ 2 0 16, at_ 2 3 19)] in
  let found := exec native (SourceMap_find (Native.compiled 8 ranges) 1) w in
  0 ≤ 1 < 2 ^ 64
  ∧ 1 < 3
  ∧ ∃ span : InstructionSpan,
      found = Some (Returns (Some span), w)
      ∧ instruction span = 1
      ∧ ranges !! 1%nat = Some (start span, end_ span).
Proof.
  intros native w at_ ranges found.
  split; [lia|]. split; [lia|].
  exact (proj1 (SourceMap_find_returns_recorded_span (H := sample_set) 0 no_rest
                  8 ranges 1 w ltac:(lia)) ltac:(simpl; lia)).
Defined.

(** A run need not end: a machine that jumps to its own instruction makes
    no progress within any number of steps, so what [execute] guarantees
    is about the runs that do stop. *)
Lemma run_may_not_end (steps : nat) :
  Native.run (H := sample_set) steps
    (@Native.Build_machine sample_set [JUMP 0] zero_registers [] 0 []) = None.
Proof. induction steps as [|steps IH]; [done | exact IH]. Qed.

(** * Further properties of the binding *)

(** ** Marshalling of values *)

Lemma one_call_lib {world A : Type} (native : library world) (f : foreign A) (w : world) :
  one_call native (lib f) f w.
Proof. split; [apply exec_lib | apply calls_lib]. Qed.

(** [Stack.push] of any Value amounts to one call of the entry point of
    the value's kind: the marshalling never raises and changes neither the
    kind byte nor the payload the [value] property reads. *)
Theorem Stack_push_is_one_lossless_call
    `{PythonRuntime} {world : Type} (native : library world)
    (self : Stack) (value : Value) (w : world) :
  0 ≤ kind value < 2 ^ 8 →
  one_call native (Stack_push self value) (push_call (ptr (vm self)) value) w.
Proof.
  intros Hk. unfold Stack_push, push_call.
  destruct (Z.eqb_spec (kind value) INTEGER) as [Hi|Hi].
  { rewrite decide_True, (Value_value_INTEGER value) by done.
    cbn [int_param mbind prog_bind bind wrap]. unfold integer.
    rewrite signed_idemp by done. apply one_call_lib. }
  rewrite (decide_False (P := kind value = INTEGER)) by done.
  destruct (Z.eqb_spec (kind value) FLOAT) as [Hf|Hf].
  { rewrite decide_True, (Value_value_FLOAT value) by done. apply one_call_lib. }
  rewrite (decide_False (P := kind value = FLOAT)), (Value_value_size value) by done.
  cbn [int_param mbind prog_bind bind wrap]. unfold size.
  rewrite unsigned_idemp, (unsigned_small 8) by done. apply one_call_lib.
Qed.

Lemma Stack_push_is_one_lossless_call_witness :
  let value := {| kind := NONE; _value := {| storage := 2 ^ 40 + 5 |} |} in
  0 ≤ kind value < 2 ^ 8
  ∧ one_call (Native.model (H := sample_set) 0 no_rest)
             (Stack_push (H := ascii_runtime) {| vm := {| ptr := 32 |} |} value)
             (stackvm_stack_push_address 32 0 (2 ^ 40 + 5)) (sample_world [] []).
Proof.
  intros value. split; [done|].
  exact (Stack_push_is_one_lossless_call (H := ascii_runtime) _
           {| vm := {| ptr := 32 |} |} value (sample_world [] []) ltac:(done)).
Defined.

(** [Stack.store] of any Value amounts to one call of the entry point of
    the value's kind, with the payload unchanged and the index reduced
    modulo 2^64: a negative index is not counted from the end, and an
    index in the range of [size_t] is passed as it is. *)
Theorem Stack_store_is_one_lossless_call
    `{PythonRuntime} {world : Type} (native : library world)
    (self : Stack) (index : Z) (value : Value) (w : world) :
  0 ≤ kind value < 2 ^ 8 →
  one_call native (Stack_store self index value)
           (store_call (ptr (vm self)) index value) w
  ∧ store_call (ptr (vm self)) (-1) value = store_call (ptr (vm self)) (2 ^ 64 - 1) value
  ∧ (0 ≤ index < 2 ^ 64 → unsigned 64 index = index).
Proof.
  intros Hk. split; [|split; [done | apply unsigned_small]].
  unfold Stack_store. rewrite Stack_namespace_store.
  unfold Stack_store_by_kind, store_call.
  destruct (Z.eqb_spec (kind value) INTEGER) as [Hi|Hi].
  { rewrite decide_True, (Value_value_INTEGER value) by done.
    cbn [int_param mbind prog_bind bind wrap]. unfold integer.
    rewrite signed_idemp by done. apply one_call_lib. }
  rewrite (decide_False (P := kind value = INTEGER)) by done.
  destruct (Z.eqb_spec (kind value) FLOAT) as [Hf|Hf].
  { rewrite decide_True, (Value_value_FLOAT value) by done. apply one_call_lib. }
  rewrite (decide_False (P := kind value = FLOAT)), (Value_value_size value) by done.
  cbn [int_param mbind prog_bind bind wrap]. unfold size.
  rewrite unsigned_idemp, (unsigned_small 8) by done. apply one_call_lib.
Qed.

Lemma Stack_store_is_one_lossless_call_witness :
  let value := {| kind := INTEGER; _value := {| storage := 2 ^ 32 - 1 |} |} in
  0 ≤ kind value < 2 ^ 8
  ∧ one_call (Native.model (H := sample_set) 0 no_rest)
             (Stack_store (H := ascii_runtime) {| vm := {| ptr := 32 |} |} (-1) value)
             (stackvm_stack_store_int 32 (2 ^ 64 - 1) (-1)) (sample_world [] []).
Proof.
  intros value. split; [done|].
  exact (proj1 (Stack_store_is_one_lossless_call (H := ascii_runtime) _
                  {| vm := {| ptr := 32 |} |} (-1) value (sample_world [] []) ltac:(done))).
Defined.

(** [Value.init] with a payload that is not of the parameter type of the
    kind's constructor (anything but an int for Integer and the Address
    kinds, anything but a float or a convertible int for Float) raises
    [ArgumentError] and never reaches the native constructor. *)
Theorem Value_init_ill_typed_payload
    `{PythonRuntime} {world : Type} (native : library world)
    (type : ValueType) (payload : pyval) (w : world) :
  type ≠ NONE →
  constructor type payload = None →
  exec native (Value_init type payload) w = Some (Raises ArgumentError, w)
  ∧ calls native (Value_init type payload) w = [].
Proof.
  intros Htype Hc. unfold Value_init.
  destruct type; try done; cbn [ValueType_int Z.eqb Pos.eqb];
    destruct payload as [|z|d|s]; simpl in Hc; try done.
  unfold double_param. destruct (float_of_int z); [done|]. by cbn.
Qed.

Lemma Value_init_ill_typed_payload_witness :
  ADDRESS_STACK ≠ NONE
  ∧ constructor (H := ascii_runtime) ADDRESS_STACK (PyFloat (Double 0)) = None
  ∧ exec (Native.model (H := sample_set) 0 no_rest)
         (Value_init (H := ascii_runtime) ADDRESS_STACK (PyFloat (Double 0)))
         (sample_world [] [])
    = Some (Raises ArgumentError, sample_world [] []).
Proof.
  split; [done|]. split; [done|].
  exact (proj1 (Value_init_ill_typed_payload (H := ascii_runtime) _
                  ADDRESS_STACK (PyFloat (Double 0)) (sample_world [] [])
                  ltac:(done) eq_refl)).
Defined.

Lemma signed_range (n z : Z) : 0 < n → - 2 ^ (n - 1) ≤ signed n z < 2 ^ (n - 1).
Proof.
  intros Hn. unfold signed.
  assert (2 ^ n = 2 * 2 ^ (n - 1)) as Hpow.
  { rewrite <- Z.pow_succ_r by lia. f_equal. lia. }
  pose proof (Z.mod_pos_bound (z + 2 ^ (n - 1)) (2 ^ n)
                ltac:(apply Z.pow_pos_nonneg; lia)). lia.
Qed.

(** Whatever the eight bytes of the union hold, the [value] property
    reads a number its field's C type can hold: a 32-bit signed integer
    for the Integer kind, a 64-bit pattern for the Float kind, an unsigned
    64-bit index for every other kind byte.  The integer field is the low
    half of the storage the size field reads whole. *)
Theorem Value_value_within_field_type (v : Value) :
  match Value_value v with
  | PyInt z =>
      if decide (kind v = INTEGER) then - 2 ^ 31 ≤ z < 2 ^ 31 else 0 ≤ z < 2 ^ 64
  | PyFloat d => kind v = FLOAT ∧ 0 ≤ bits d < 2 ^ 64
  | PyNone | PyStr _ => False
  end
  ∧ unsigned 32 (integer (_value v)) = unsigned 32 (size (_value v)).
Proof.
  split.
  - destruct (decide (kind v = INTEGER)) as [Hi|Hi].
    { rewrite Value_value_INTEGER by done. apply (signed_range 32). lia. }
    destruct (decide (kind v = FLOAT)) as [Hf|Hf].
    { rewrite Value_value_FLOAT by done. split; [done|]. apply unsigned_range. lia. }
    rewrite Value_value_size by done. apply unsigned_range. lia.
  - unfold integer, size, signed, unsigned.
    rewrite (Z.mod_mod_divide _ (2 ^ 64) (2 ^ 32)) by (by exists (2 ^ 32)).
    pose proof (Z.div_mod (storage (_value v) + 2 ^ (32 - 1)) (2 ^ 32) ltac:(done)) as Hdiv.
    replace ((storage (_value v) + 2 ^ (32 - 1)) `mod` 2 ^ 32 - 2 ^ (32 - 1))
      with (storage (_value v)
            + - ((storage (_value v) + 2 ^ (32 - 1)) `div` 2 ^ 32) * 2 ^ 32) by lia.
    by rewrite Z.mod_add.
Qed.

(** ** Failures of the text accessors *)

(** When the callee reports a positive length, an accessor does not cut
    the text to that length.  For a null pointer it raises [TypeError];
    for a length of 2^63 or more, which no array type can have,
    [OverflowError]; for a length the interpreter has not the memory for,
    [MemoryError]; for a C string longer than the reported length,
    [ValueError]; for bytes that do not decode, [UnicodeDecodeError].  A
    text that fits is read up to its first NUL. *)
Theorem text_accessors_failures
    `{PythonRuntime} {world : Type} (native : library world)
    (a : accessor) (w w' : world) (err_ptr : option (list byte)) (err_len : Z) :
  native _ (accessor_call a) w = Some ((err_ptr, err_len), w') →
  0 < err_len →
  exec native (accessor_read a) w =
  Some (match err_ptr with
        | None => Raises TypeError
        | Some bs =>
            if decide (2 ^ 63 ≤ err_len) then Raises OverflowError
            else if negb (can_allocate err_len) then Raises MemoryError
            else if decide (err_len < Z.of_nat (length bs)) then Raises ValueError
            else match bytes_decode (c_string bs) with
                 | Some s => Returns (Some s)
                 | None => Raises UnicodeDecodeError
                 end
        end, w').
Proof.
  intros Hcall Hlen.
  assert (Hread : exec native (accessor_read a) w
                  = exec native (text_result err_ptr err_len) w').
  { destruct a; simpl in Hcall |- *; by rewrite Hcall. }
  rewrite Hread. by apply exec_text_result_positive.
Qed.

Lemma text_accessors_failures_witness :
  let self := {| parser := 64; source := 128; source_len := 12 |} in
  let line := (String.list_byte_of_string "pushi 1" ++ [x0a]
               ++ String.list_byte_of_string "nopz")%list in
  garbled_parser _ (accessor_call (Parser_current_line self)) () = Some ((Some line, 7), ())
  ∧ 0 < 7
  ∧ exec garbled_parser (accessor_read (H := ascii_runtime) (Parser_current_line self)) ()
    = Some (Raises ValueError, ()).
Proof.
  intros self line. split; [reflexivity|]. split; [lia|].
  exact (text_accessors_failures (H := ascii_runtime) garbled_parser
           (Parser_current_line self) () () (Some line) 7 eq_refl ltac:(lia)).
Defined.

(** ** Outcomes of [execute] and [parse] *)

Lemma calls_VirtualMachine_err_message `{PythonRuntime} {world : Type}
    (native : library world) (self : VirtualMachine) (w : world) :
  calls native (VirtualMachine_err_message self) w = [("stackvm_get_err_message", 2%nat)].
Proof.
  unfold VirtualMachine_err_message. rewrite calls_bind, calls_lib, exec_lib.
  destruct (native _ _ w) as [[[p n] w']|]; cbn [fmap option_fmap option_map fst snd]; [|done].
  by rewrite calls_text_result.
Qed.

(** [execute] makes one foreign call when the run succeeds and returns;
    when the run fails it reads the message once and raises: the
    exception carrying the message when there is one to read, the
    exception carrying [None] when the reported length is zero, and
    whatever reading the message raises otherwise.  It makes no other
    call: it neither reads [last_instruction] nor releases the machine. *)
Theorem VirtualMachine_execute_outcomes
    `{PythonRuntime} {world : Type} (native : library world)
    (self : VirtualMachine) (w w1 : world) (success : bool) :
  native _ (stackvm_execute (ptr self)) w = Some (success, w1) →
  if success then
    exec native (VirtualMachine_execute self) w = Some (Returns (), w1)
    ∧ calls native (VirtualMachine_execute self) w = [("stackvm_execute", 1%nat)]
  else
    calls native (VirtualMachine_execute self) w
      = [("stackvm_execute", 1%nat); ("stackvm_get_err_message", 2%nat)]
    ∧ exec native (VirtualMachine_execute self) w =
      match exec native (VirtualMachine_err_message self) w1 with
      | Some (Returns msg, w2) => Some (Raises (Exception (pyval_of_text msg)), w2)
      | Some (Raises e, w2) => Some (Raises e, w2)
      | None => None
      end
    ∧ ∀ err_ptr w2,
        native _ (stackvm_get_err_message (ptr self) 1) w1 = Some ((err_ptr, 0), w2) →
        exec native (VirtualMachine_execute self) w = Some (Raises (Exception PyNone), w2).
Proof.
  intros Hrun. destruct success.
  - unfold VirtualMachine_execute. cbn. by rewrite Hrun.
  - assert (Hexec : exec native (VirtualMachine_execute self) w =
                    match exec native (VirtualMachine_err_message self) w1 with
                    | Some (Returns msg, w2) =>
                        Some (Raises (Exception (pyval_of_text msg)), w2)
                    | Some (Raises e, w2) => Some (Raises e, w2)
                    | None => None
                    end).
    { unfold VirtualMachine_execute.
      rewrite exec_bind, exec_lib, Hrun. cbn [fmap option_fmap option_map fst snd].
      rewrite exec_bind. by destruct (exec native _ w1) as [[[]]|]. }
    split; [|split; [done|]].
    + unfold VirtualMachine_execute.
      rewrite calls_bind, calls_lib, exec_lib, Hrun. cbn [fmap option_fmap option_map fst snd].
      rewrite calls_bind, calls_VirtualMachine_err_message.
      by destruct (exec native (VirtualMachine_err_message self) w1) as [[[]]|].
    + intros err_ptr w2 Hmsg. rewrite Hexec. unfold VirtualMachine_err_message.
      by rewrite exec_bind, exec_lib, Hmsg.
Qed.

Lemma VirtualMachine_execute_outcomes_witness :
  let native := Native.model (H := sample_set) 8 no_rest in
  native _ (stackvm_execute 32) (sample_world dividing_program []) = Some (false, faulted_world)
  ∧ exec native (VirtualMachine_execute (H := ascii_runtime) {| ptr := 32 |})
         (sample_world dividing_program [])
    = Some (Raises (Exception (PyStr "division by zero")), faulted_world)
  ∧ calls native (VirtualMachine_execute (H := ascii_runtime) {| ptr := 32 |})
          (sample_world dividing_program [])
    = [("stackvm_execute", 1%nat); ("stackvm_get_err_message", 2%nat)].
Proof.
  intros native.
  pose proof (VirtualMachine_execute_outcomes (H := ascii_runtime) native {| ptr := 32 |}
                (sample_world dividing_program []) faulted_world false eq_refl)
    as (Hcalls & Hexec & _).
  split; [reflexivity|]. split; [exact Hexec | exact Hcalls].
Defined.

Lemma calls_Parser_get_err_message `{PythonRuntime} {world : Type}
    (native : library world) (self : Parser) (w : world) :
  calls native (Parser_get_err_message self) w = [("stackvm_parser_get_err_message", 2%nat)].
Proof.
  unfold Parser_get_err_message. rewrite calls_bind, calls_lib, exec_lib.
  destruct (native _ _ w) as [[[p n] w']|]; cbn [fmap option_fmap option_map fst snd]; [|done].
  by rewrite calls_text_result.
Qed.

(** [parse] makes one foreign call when the native parse succeeds.  When
    it fails, [parse] reads the message and then the position; if reading
    the message raises, [parse] raises that same exception, not its own,
    and never asks for the position. *)
Theorem Parser_parse_propagates_read_errors
    `{PythonRuntime} {world : Type} (native : library world)
    (self : Parser) (w w1 : world) (addr : Z) :
  native _ (stackvm_parser_parse self) w = Some (addr, w1) →
  (addr ≠ 0 → calls native (Parser_parse self) w = [("stackvm_parser_parse", 1%nat)])
  ∧ (addr = 0 →
     (∀ e w2,
        exec native (Parser_get_err_message self) w1 = Some (Raises e, w2) →
        exec native (Parser_parse self) w = Some (Raises e, w2)
        ∧ calls native (Parser_parse self) w
          = [("stackvm_parser_parse", 1%nat); ("stackvm_parser_get_err_message", 2%nat)])
     ∧ (∀ msg w2,
          exec native (Parser_get_err_message self) w1 = Some (Returns msg, w2) →
          calls native (Parser_parse self) w
          = [("stackvm_parser_parse", 1%nat); ("stackvm_parser_get_err_message", 2%nat);
             ("stackvm_parser_get_position", 1%nat)])).
Proof.
  intros Hparse. unfold Parser_parse. split.
  - intros Haddr. rewrite calls_bind, calls_lib, exec_lib, Hparse.
    cbn [fmap option_fmap option_map fst snd]. by rewrite (proj2 (Z.eqb_neq addr 0)).
  - intros ->. split.
    + intros e w2 Hmsg. split.
      * rewrite exec_bind, exec_lib, Hparse. cbn [fmap option_fmap option_map fst snd].
        rewrite Z.eqb_refl. by rewrite exec_bind, Hmsg.
      * rewrite calls_bind, calls_lib, exec_lib, Hparse.
        cbn [fmap option_fmap option_map fst snd]. rewrite Z.eqb_refl.
        by rewrite calls_bind, calls_Parser_get_err_message, Hmsg.
    + intros msg w2 Hmsg.
      rewrite calls_bind, calls_lib, exec_lib, Hparse.
      cbn [fmap option_fmap option_map fst snd]. rewrite Z.eqb_refl.
      rewrite calls_bind, calls_Parser_get_err_message, Hmsg.
      unfold Parser_get_position. cbn.
      by destruct (native _ (stackvm_parser_get_position self) w2) as [[]|].
Qed.

Lemma Parser_parse_propagates_read_errors_witness :
  let self := {| parser := 64; source := 128; source_len := 4 |} in
  mute_parser _ (stackvm_parser_parse self) () = Some (0, ())
  ∧ exec mute_parser (Parser_get_err_message (H := ascii_runtime) self) ()
    = Some (Raises TypeError, ())
  ∧ exec mute_parser (Parser_parse (H := ascii_runtime) self) () = Some (Raises TypeError, ())
  ∧ calls mute_parser (Parser_parse (H := ascii_runtime) self) ()
    = [("stackvm_parser_parse", 1%nat); ("stackvm_parser_get_err_message", 2%nat)].
Proof.
  intros self. split; [reflexivity|]. split; [reflexivity|].
  exact (proj1 (proj2 (Parser_parse_propagates_read_errors (H := ascii_runtime) mute_parser
                         self () () 0 eq_refl) eq_refl)
           TypeError () eq_refl).
Defined.

(** ** SourceMap.find against any library *)

(** [find] builds a scratch span from two default positions, asks the
    native map for the index reduced modulo 2^64, and returns [None]
    exactly when the answer is zero; on any other answer, negative ones
    included, it returns the span as the native call left it. *)
Theorem SourceMap_find_follows_native_answer
    {world : Type} (native : library world) (self : SourceMap) (index : Z)
    (w w1 w2 w3 w4 : world) (p1 p2 : TextPosition) (scratch written : InstructionSpan)
    (answer : Z) :
  native _ (stackvm_textposition_init 0 0 0) w = Some (p1, w1) →
  native _ (stackvm_textposition_init 0 0 0) w1 = Some (p2, w2) →
  native _ (stackvm_instructionspan_init 0 p1 p2) w2 = Some (scratch, w3) →
  native _ (stackvm_sourcemap_find self (unsigned 64 index) scratch) w3
    = Some ((answer, written), w4) →
  exec native (SourceMap_find self index) w
    = Some (Returns (if decide (answer = 0) then None else Some written), w4)
  ∧ calls native (SourceMap_find self index) w
    = [("stackvm_textposition_init", 3%nat); ("stackvm_textposition_init", 3%nat);
       ("stackvm_instructionspan_init", 3%nat); ("stackvm_sourcemap_find", 3%nat)].
Proof.
  intros Hp1 Hp2 Hspan Hfind.
  unfold SourceMap_find, InstructionSpan_init, TextPosition_init.
  change (wrap c_uint32 0) with 0. change (wrap c_size_t 0) with 0.
  change (wrap c_size_t index) with (unsigned 64 index).
  cbn -[unsigned]. rewrite Hp1, Hp2, Hspan, Hfind. cbn.
  destruct (Z.eqb_spec answer 0); by case_decide.
Qed.

Lemma SourceMap_find_follows_native_answer_witness :
  let native := Native.model (H := sample_set) 0 no_rest in
  let w := sample_world [] [] in
  let origin := {| line := 0; column := 0; offset := 0 |} in
  let scratch := {| instruction := 0; start := origin; end_ := origin |} in
  let self := Native.compiled 8 [(origin, origin)] in
  native _ (stackvm_textposition_init 0 0 0) w = Some (origin, w)
  ∧ native _ (stackvm_instructionspan_init 0 origin origin) w = Some (scratch, w)
  ∧ native _ (stackvm_sourcemap_find self (unsigned 64 (2 ^ 64 + 3)) scratch) w
    = Some ((0, scratch), w)
  ∧ exec native (SourceMap_find self (2 ^ 64 + 3)) w = Some (Returns None, w).
Proof.
  intros native w origin scratch self.
  split; [reflexivity|]. split; [reflexivity|]. split; [reflexivity|].
  exact (proj1 (SourceMap_find_follows_native_answer native self (2 ^ 64 + 3)
                  w w w w w origin origin scratch scratch 0
                  eq_refl eq_refl eq_refl eq_refl)).
Defined.

(** ** The table of declarations *)

Lemma call_sites_match_declarations_witness :
  symbol (stackvm_reader_destroy 8 16) ≠ "stackvm_init"
  ∧ symbol (stackvm_reader_destroy 8 16) ≠ "stackvm_stack_store"
  ∧ length <$> argtypes "stackvm_reader_destroy" = Some 2%nat.
Proof.
  split; [done|]. split; [done|].
  exact (call_sites_match_declarations (stackvm_reader_destroy 8 16)
           ltac:(done) ltac:(done)).
Defined.

(** No function is declared twice; every function the binding calls is
    declared, the generic [stackvm_stack_store] of the shadowed [store]
    apart; and the two [_init_empty] constructors are declared but never
    called. *)
Theorem declarations_cover_the_calls :
  NoDup declarations.*1
  ∧ length declarations = 46%nat
  ∧ ∀ (R : Type) (f : foreign R),
      (symbol f ∈ declarations.*1 ∨ symbol f = "stackvm_stack_store")
      ∧ symbol f ≠ "stackvm_textposition_init_empty"
      ∧ symbol f ≠ "stackvm_instructionspan_init_empty".
Proof.
  split; [by apply (bool_decide_unpack _); vm_compute|]. split; [done|].
  intros R f. split; [|by destruct f].
  destruct f; first [by right | left; by apply (bool_decide_unpack _); vm_compute].
Qed.
